(** * AIFeeder: a shallow embedding of the feed pipeline

    The repository has two variants of the same batch job:
    - [src/AIFeeder.py], class [RSSSummary]: JSON dedup file under a file
      lock, page-abstract resolution, a per-feed cap counted on successful
      summaries, report and dedup commit only when something was produced;
    - [src/main.py]: an older script with a line-delimited dedup file, a cap
      applied to the raw entry list and unconditional report writing.

    Both are embedded below (modules [Py], [AIFeeder], [MainPy]).  The
    network, the feed parser, the HTML parser and the LLM backend are
    external collaborators: they appear as section variables (oracles). *)

From Stdlib Require Import String Ascii List ZArith Bool Lia.
Import ListNotations.
Local Open Scope string_scope.
Local Open Scope list_scope.

(** ** Python values and helpers *)
Module Py.

(** [str.isspace] on the ASCII range, as used by [str.strip]. *)
Definition is_space (c : ascii) : bool :=
  match nat_of_ascii c with
  | 9 | 10 | 11 | 12 | 13 | 32 => true
  | _ => false
  end.

Fixpoint lstrip (s : string) : string :=
  match s with
  | EmptyString => EmptyString
  | String c r => if is_space c then lstrip r else s
  end.

Fixpoint rstrip (s : string) : string :=
  match s with
  | EmptyString => EmptyString
  | String c r =>
      let r' := rstrip r in
      if is_space c && String.eqb r' EmptyString then EmptyString
      else String c r'
  end.

(** [s.strip()] *)
Definition strip (s : string) : string := rstrip (lstrip s).

(** Truthiness of a [str]: non-empty. *)
Definition truthy (s : string) : bool := negb (String.eqb s "").

(** Truthiness of [dict.get(k)], i.e. of an optional string. *)
Definition opt_truthy (o : option string) : bool :=
  match o with Some s => truthy s | None => false end.

(** [d.get(k, default)] *)
Definition get_or (o : option string) (d : string) : string :=
  match o with Some s => s | None => d end.

(** [a or b] on two values of [dict.get(k)]. *)
Definition opt_or (a b : option string) : option string :=
  if opt_truthy a then a else b.

(** A Python [set] of strings, kept as a duplicate-free list. *)
Definition mem (x : string) (l : list string) : bool :=
  existsb (String.eqb x) l.

(** [s.add(x)] *)
Definition set_add (l : list string) (x : string) : list string :=
  if mem x l then l else l ++ [x].

(** [s.update(xs)] *)
Definition set_update (l xs : list string) : list string :=
  fold_left set_add xs l.

(** The exceptions the embedded code can raise. *)
Inductive exn :=
| IndexError
| TypeError
| OSError
| JSONDecodeError
| ResponseError (status_code : Z)
| RequestException
| OtherError.

(** A computation that returns or raises. *)
Inductive res (A : Type) :=
| Ok (a : A)
| Raise (x : exn).
Arguments Ok {A} a.
Arguments Raise {A} x.

(** Outcome of one I/O operation that reads (lock, open, read). *)
Inductive io := IoOk | IoFail.

(** Outcome of writing a file opened with [open(path, 'w')]: the write
    completes; or it fails before the file is opened (lock or open error),
    leaving the file as it was; or it fails after [open] has truncated the
    file (a full disk), leaving a strict prefix of the text. *)
Inductive wio := WOk | WFailOpen | WFailWrite.

(** What a file written with mode ['w'] holds: the whole text of [x], or,
    after a write that failed once the file was truncated, a strict prefix
    of that text. *)
Inductive written (A : Type) := Complete (x : A) | Truncated (x : A).
Arguments Complete {A} x.
Arguments Truncated {A} x.

(** Outcome of appending one line with [open(path, 'a')]: the line is
    appended; or [open] fails and nothing is written; or the first
    [written] characters of the line reach the file before the write
    raises. *)
Inductive aio := AOk | AFailOpen | AFailWrite (written : nat).

(** Iterating over a text file opened with [open(path, 'r')]: the lines
    of its text (after the reader's newline translation), each with its
    terminating newline, the last one without it when the text does not end
    in a newline. *)
Fixpoint file_lines (s : string) : list string :=
  match s with
  | EmptyString => []
  | String c r =>
      if Ascii.eqb c (ascii_of_nat 10) then String c EmptyString :: file_lines r
      else match file_lines r with
           | [] => [String c EmptyString]
           | h :: t => String c h :: t
           end
  end.

(** The newline translation of a file opened in text mode: "\r\n" and a
    lone "\r" are read as "\n"; [cr] records that the previous character
    was a "\r". *)
Fixpoint translate_nl (cr : bool) (s : string) : string :=
  match s with
  | EmptyString => EmptyString
  | String c r =>
      if Ascii.eqb c (ascii_of_nat 10) then
        (if cr then translate_nl false r else String c (translate_nl false r))
      else if Ascii.eqb c (ascii_of_nat 13) then String (ascii_of_nat 10) (translate_nl true r)
      else String c (translate_nl false r)
  end.

Definition universal_newlines (s : string) : string := translate_nl false s.

(** [s.startswith('#')] *)
Definition starts_hash (s : string) : bool := String.prefix "#" s.

End Py.
Import Py.

(** ** Feed entries, as exposed by [feedparser] *)

(** [entry.get(k)] for the keys the code reads. ['content'] is a list of
    dicts; each block is represented by its ['value'] key. *)
Record entry := mk_entry {
  e_id : option string;
  e_link : option string;
  e_title : option string;
  e_summary : option string;
  e_description : option string;
  e_content : option (list (option string))
}.

Record feed := mk_feed { bozo : bool; entries : list entry }.

(** The backend's answer to one [client.chat] call. *)
Inductive reply :=
| Reply (content : string)
| RespErr (status_code : Z)
| OtherErr.

(** ** [src/AIFeeder.py], class [RSSSummary] *)
Module AIFeeder.

Definition failed_sentinel : string := "Summary generation failed.".

(** [summarize_article]: the backend's text when non-empty, otherwise
    (empty text, [ResponseError] or any other exception) the sentinel. *)
Definition summarize_article (r : reply) : string :=
  match r with
  | Reply s => if truthy s then s else failed_sentinel
  | RespErr _ => failed_sentinel
  | OtherErr => failed_sentinel
  end.

(** A collected summary: the dict appended to [summaries]. *)
Record summary_result := mk_result {
  r_title : string; r_link : string; r_summary : string; r_content : string
}.

(** [entry.get('summary', '') or entry.get('description', '') or
     entry.get('content', [{}])[0].get('value', '') or entry.get('title', '')];
    indexing an empty ['content'] list raises [IndexError]. *)
Definition content_fallback (e : entry) : res string :=
  let s := get_or (e_summary e) "" in
  if truthy s then Ok s else
  let d := get_or (e_description e) "" in
  if truthy d then Ok d else
  match e_content e with
  | Some [] => Raise IndexError
  | blocks =>
      let b := match blocks with Some (b :: _) => b | _ => None end in
      let v := get_or b "" in
      if truthy v then Ok v else Ok (get_or (e_title e) "")
  end.

(** [entry.get('id') or entry.get('link')] *)
Definition article_id (e : entry) : option string := opt_or (e_id e) (e_link e).

(** [article_id and article_id not in self.processed_articles] *)
Definition eligible (snap : list string) (e : entry) : bool :=
  match article_id e with
  | Some a => truthy a && negb (mem a snap)
  | None => false
  end.

Inductive event :=
| FeedBegin (url : string)
| FeedBozo (url : string)
| FeedFailed (url : string)
| Attempt (aid : string)
| FeedEnd (url : string).

(** What one iteration of the entry loop does (after the cap test). *)
Inductive step_out :=
| Ineligible
| EmptyContent (aid : string)
| SummaryFailed (aid : string)
| Produced (aid : string) (r : summary_result)
| StepRaised (aid : string) (x : exn).

Section Pipeline.
(** [self.fetch_article_abstract(url)]: [None] or a string. *)
Variable abstract_of : string -> option string.
(** The backend's reply to the summarization prompt built from a content. *)
Variable backend : string -> reply.
(** [feedparser.parse(url)]; an exception is caught by the feed handler. *)
Variable parse : string -> res feed.

Definition resolve_content (aid : string) (e : entry) : res string :=
  let abs := abstract_of aid in
  if opt_truthy abs then Ok (get_or abs "") else content_fallback e.

Definition article_step (snap : list string) (e : entry) : step_out :=
  match article_id e with
  | Some aid =>
      if truthy aid && negb (mem aid snap) then
        match resolve_content aid e with
        | Raise x => StepRaised aid x
        | Ok content =>
            if negb (truthy content) then EmptyContent aid else
            let summary := summarize_article (backend content) in
            if negb (String.eqb summary failed_sentinel) then
              Produced aid (mk_result (get_or (e_title e) "Untitled")
                                      (get_or (e_link e) "") summary content)
            else SummaryFailed aid
        end
      else Ineligible
  | None => Ineligible
  end.

Inductive loop_exit := Exhausted | CapReached | Aborted (x : exn).

(** Result of the [for entry in feed.entries] loop of one feed: the
    summaries appended (each with the [article_id] added to
    [current_processed]), the identifiers attempted, and how it ended. *)
Record feed_out := mk_feed_out {
  produced : list (string * summary_result);
  attempts : list string;
  exit : loop_exit
}.

Fixpoint entries_loop (articles_per_feed : Z) (snap : list string)
         (count : Z) (es : list entry) : feed_out :=
  match es with
  | [] => mk_feed_out [] [] Exhausted
  | e :: es' =>
      if (articles_per_feed <=? count)%Z then mk_feed_out [] [] CapReached
      else
        match article_step snap e with
        | Ineligible => entries_loop articles_per_feed snap count es'
        | EmptyContent aid | SummaryFailed aid =>
            let o := entries_loop articles_per_feed snap count es' in
            mk_feed_out (produced o) (aid :: attempts o) (exit o)
        | Produced aid r =>
            let o := entries_loop articles_per_feed snap (count + 1) es' in
            mk_feed_out ((aid, r) :: produced o) (aid :: attempts o) (exit o)
        | StepRaised aid x => mk_feed_out [] [aid] (Aborted x)
        end
  end.

(** One iteration of [for feed_url in self.feeds]: the summaries it
    appends and the events it emits, bracketed by [FeedBegin]/[FeedEnd]. *)
Definition process_feed (articles_per_feed : Z) (snap : list string)
           (url : string) : list (string * summary_result) * list event :=
  match parse url with
  | Raise _ => ([], [FeedBegin url; FeedFailed url; FeedEnd url])
  | Ok f =>
      if bozo f then ([], [FeedBegin url; FeedBozo url; FeedEnd url])
      else
        let o := entries_loop articles_per_feed snap 0 (entries f) in
        (produced o, FeedBegin url :: map Attempt (attempts o) ++ [FeedEnd url])
  end.

Fixpoint feeds_loop (articles_per_feed : Z) (snap : list string)
         (feeds : list string) : list (string * summary_result) * list event :=
  match feeds with
  | [] => ([], [])
  | u :: us =>
      let '(p, t) := process_feed articles_per_feed snap u in
      let '(ps, ts) := feeds_loop articles_per_feed snap us in
      (p ++ ps, t ++ ts)
  end.

End Pipeline.

(** *** The dedup file and the run *)

(** Items of the JSON array in [processed_articles_file]: strings, or
    nested arrays/objects, which [set(...)] rejects as unhashable. *)
Inductive json_item := JStr (s : string) | JUnhashable.

Inductive file_content := JsonArray (items : list json_item) | NotJson.

(** The files the run touches: the dedup file ([None] when it does not
    exist) and the report files written so far, oldest first. *)
Record fs := mk_fs {
  dedup_file : option file_content;
  reports : list (written (list summary_result))
}.

(** The identifiers a dedup file stores. *)
Definition stored_ids (f : option file_content) : list string :=
  match f with
  | Some (JsonArray items) =>
      flat_map (fun i => match i with JStr s => [s] | JUnhashable => [] end) items
  | _ => []
  end.

Inductive log := LogInfo (msg : string) | LogError (msg : string).

(** [set(json.load(f))] on a parsed array. *)
Fixpoint json_strings (items : list json_item) : res (list string) :=
  match items with
  | [] => Ok []
  | JStr s :: r =>
      match json_strings r with Ok l => Ok (s :: l) | Raise x => Raise x end
  | JUnhashable :: _ => Raise TypeError
  end.

(** The body of the [try] in [_load_processed]; [rd] is the outcome of
    taking the lock and opening the file. *)
Definition load_try (f : option file_content) (rd : io) : list log * res (list string) :=
  match f with
  | None => ([LogInfo "Processed articles file not found, initializing as empty set."], Ok [])
  | Some c =>
      match rd with
      | IoFail => ([], Raise OSError)
      | IoOk =>
          match c with
          | NotJson => ([], Raise JSONDecodeError)
          | JsonArray items =>
              match json_strings items with
              | Raise x => ([], Raise x)
              | Ok l => ([LogInfo "Loaded processed articles."], Ok (set_update [] l))
              end
          end
      end
  end.

(** [_load_processed]: [except Exception] logs and returns [set()]. *)
Definition _load_processed (f : option file_content) (rd : io) : list log * res (list string) :=
  match load_try f rd with
  | (lg, Ok s) => (lg, Ok s)
  | (lg, Raise _) => (lg ++ [LogError "Failed to load processed articles"], Ok [])
  end.

(** [_load_feeds]: the stripped lines that are neither blank nor, once
    stripped, start with '#'; [None] is a file that cannot be opened or
    read, and the error is re-raised. *)
Definition _load_feeds (f : option string) : res (list string) :=
  match f with
  | None => Raise OSError
  | Some text =>
      Ok (map strip (filter (fun line => truthy (strip line) && negb (starts_hash (strip line)))
                            (file_lines text)))
  end.

(** [_save_processed]: overwrite the file with [list(current_processed)]
    ([json.dump] into a file opened with ['w']); a failure is logged.  A
    failure before the file is opened leaves it as it was; a failure after
    [open] truncated it leaves an empty or partial JSON text, which is not
    a JSON document (a strict prefix of an array's text never is). *)
Definition _save_processed (ids : list string) (wr : wio) (st : fs) : fs :=
  match wr with
  | WOk => mk_fs (Some (JsonArray (map JStr ids))) (reports st)
  | WFailOpen => st
  | WFailWrite => mk_fs (Some NotJson) (reports st)
  end.

(** [_generate_report]: one new report file, a truncated one when the
    write fails after [open], or none when it fails before; the failure is
    logged. *)
Definition _generate_report (sums : list summary_result) (wr : wio) (st : fs) : fs :=
  match wr with
  | WOk => mk_fs (dedup_file st) (reports st ++ [Complete sums])
  | WFailOpen => st
  | WFailWrite => mk_fs (dedup_file st) (reports st ++ [Truncated sums])
  end.

Inductive call := Chat | Pull.

(** [_check_model_accessible], given the outcomes of the probe, the pull
    and the re-probe: the calls made, and whether it raises. *)
Definition _check_model_accessible (probe pull reprobe : res unit) : list call * res unit :=
  match probe with
  | Ok _ => ([Chat], Ok tt)
  | Raise (ResponseError code) =>
      if (code =? 404)%Z then
        match pull with
        | Raise x => ([Chat; Pull], Raise x)
        | Ok _ =>
            match reprobe with
            | Ok _ => ([Chat; Pull; Chat], Ok tt)
            | Raise x => ([Chat; Pull; Chat], Raise x)
            end
        end
      else ([Chat], Raise (ResponseError code))
  | Raise x => ([Chat], Raise x)
  end.

(** Outcomes of the run's I/O and backend calls other than the per-article ones. *)
Record world := mk_world {
  load_io : io; probe : res unit; pull_r : res unit; reprobe : res unit;
  report_io : wio; save_io : wio
}.

Record run_out := mk_run_out {
  calls : list call;
  trace : list event;
  results : list (string * summary_result);
  final : fs;
  status : res unit
}.

(** [self.processed_articles] as loaded by [__init__]. *)
Definition loaded_snapshot (w : world) (st : fs) : list string :=
  match snd (_load_processed (dedup_file st) (load_io w)) with
  | Ok s => s | Raise _ => []
  end.

Section Run.
Variable abstract_of : string -> option string.
Variable backend : string -> reply.
Variable parse : string -> res feed.

(** [process_feeds]: the loop over feeds, then report and dedup commit
    only when [summaries] is non-empty. *)
Definition process_feeds (articles_per_feed : Z) (snap feeds : list string)
           (rep wr : wio) (st : fs)
  : list (string * summary_result) * list event * fs :=
  let '(sums, tr) := feeds_loop abstract_of backend parse articles_per_feed snap feeds in
  match sums with
  | [] => (sums, tr, st)
  | _ :: _ =>
      let st1 := _generate_report (map snd sums) rep st in
      let processed := set_update snap (map fst sums) in
      (sums, tr, _save_processed processed wr st1)
  end.

(** [RSSSummary('settings.json')] followed by [process_feeds()]: the dedup
    set is loaded, the model is checked (a raise aborts the script), then
    the feeds are processed. *)
Definition run (articles_per_feed : Z) (feeds : list string) (w : world) (st : fs) : run_out :=
  let snap := loaded_snapshot w st in
  let '(cs, chk) := _check_model_accessible (probe w) (pull_r w) (reprobe w) in
  match chk with
  | Raise x => mk_run_out cs [] [] st (Raise x)
  | Ok _ =>
      let '(sums, tr, st') := process_feeds articles_per_feed snap feeds (report_io w) (save_io w) st in
      mk_run_out cs tr sums st' (Ok tt)
  end.
End Run.

End AIFeeder.

(** ** [src/main.py] *)
Module MainPy.

Definition newline : string := String (ascii_of_nat 10) EmptyString.

(** [s.split('\n')] *)
Fixpoint split_lines (s : string) : list string :=
  match s with
  | EmptyString => [EmptyString]
  | String c r =>
      if Ascii.eqb c (ascii_of_nat 10) then EmptyString :: split_lines r
      else match split_lines r with
           | [] => [String c EmptyString]
           | h :: t => String c h :: t
           end
  end.

(** [sep.join(l)] *)
Fixpoint join (sep : string) (l : list string) : string :=
  match l with
  | [] => EmptyString
  | [x] => x
  | x :: r => String.append x (String.append sep (join sep r))
  end.

(** [l[:k]] on a list, negative [k] counting from the end. *)
Definition slice_to {A} (l : list A) (k : Z) : list A :=
  if (0 <=? k)%Z then firstn (Z.to_nat k) l
  else firstn (Z.to_nat (Z.of_nat (length l) + k)) l.

(** The last [n] elements of a list: what [deque(file, n)] keeps. *)
Definition lastn {A} (n : nat) (l : list A) : list A := skipn (length l - n) l.

(** [load_processed_articles]: the file is line-delimited ([None] when it
    does not exist); a negative [maxlen] makes [deque] raise. *)
Definition load_processed_articles (f : option (list string)) (article_limit : Z)
  : res (list string) :=
  match f with
  | None => Ok []
  | Some lines =>
      if (article_limit <? 0)%Z then Raise OtherError
      else Ok (set_update [] (map strip (lastn (Z.to_nat article_limit) lines)))
  end.

Record article := mk_article { a_title : string; a_link : string; a_content : string }.

(** [entry.get('summary') or entry.get('description') or
     entry.get('content', [{}])[0].get('value', '') or entry.get('title', '')] *)
Definition entry_content (e : entry) : res string :=
  if opt_truthy (e_summary e) then Ok (get_or (e_summary e) "") else
  if opt_truthy (e_description e) then Ok (get_or (e_description e) "") else
  match e_content e with
  | Some [] => Raise IndexError
  | blocks =>
      let b := match blocks with Some (b :: _) => b | _ => None end in
      let v := get_or b "" in
      if truthy v then Ok v else Ok (get_or (e_title e) "")
  end.

(** The loop body of [fetch_valid_articles] over the sliced entries. *)
Fixpoint valid_loop (processed : list string) (es : list entry) : res (list article) :=
  match es with
  | [] => Ok []
  | e :: es' =>
      let link := get_or (e_link e) "No_URL_available" in
      if truthy link && negb (mem link processed) then
        match entry_content e with
        | Raise x => Raise x
        | Ok c =>
            if truthy (strip c) then
              match valid_loop processed es' with
              | Ok r => Ok (mk_article (get_or (e_title e) "Untitled") link c :: r)
              | Raise x => Raise x
              end
            else valid_loop processed es'
        end
      else valid_loop processed es'
  end.

(** [ensure_model_available]: on a 404 the model is pulled, with no
    second probe. *)
Definition ensure_model_available (probe pull : res unit) : list AIFeeder.call * res unit :=
  match probe with
  | Ok _ => ([AIFeeder.Chat], Ok tt)
  | Raise (ResponseError code) =>
      if (code =? 404)%Z then
        match pull with
        | Raise x => ([AIFeeder.Chat; AIFeeder.Pull], Raise x)
        | Ok _ => ([AIFeeder.Chat; AIFeeder.Pull], Ok tt)
        end
      else ([AIFeeder.Chat], Raise (ResponseError code))
  | Raise x => ([AIFeeder.Chat], Raise x)
  end.

(** [summarize_article]: blank lines dropped and lines stripped; [None] on
    a backend error. *)
Definition summarize_article (r : reply) : option string :=
  match r with
  | Reply s => Some (join newline (filter truthy (map strip (split_lines s))))
  | RespErr _ | OtherErr => None
  end.

(** [f"## {title}\n\n{summary}\n\n[Article Link]({link})\n\n"] *)
Definition md_block (a : article) (s : string) : string :=
  String.concat "" ["## "; a_title a; newline; newline; s; newline; newline;
                    "[Article Link]("; a_link a; ")"; newline; newline].

(** The two digest files of a run: the Markdown file and the HTML file
    rendered from the same blocks. *)
Inductive report_file := Markdown (blocks : list string) | Html (blocks : list string).

(** The files [main] touches: the processed-articles file as text ([None]
    when it does not exist), the invalid-feeds file, and the digest files
    of the output folder by name. *)
Record mfs := mk_mfs {
  m_dedup : option string;
  m_invalid : option (written (list string));
  m_reports : list (string * written report_file)
}.

(** The text of a file that may not exist ([open(path, 'a')] creates it). *)
Definition text_of (f : option string) : string :=
  match f with Some t => t | None => EmptyString end.

(** The lines [deque(file, n)] iterates over: those of the translated text. *)
Definition processed_lines (f : option string) : option (list string) :=
  option_map (fun t => file_lines (universal_newlines t)) f.

(** [save_processed_article]: [file.write(f"{article_link}\n")] on the file
    opened with ['a']; nothing catches a failure. *)
Definition save_processed_article (o : aio) (link : string) (st : mfs) : mfs * res unit :=
  let line := String.append link newline in
  match o with
  | AOk => (mk_mfs (Some (String.append (text_of (m_dedup st)) line)) (m_invalid st) (m_reports st), Ok tt)
  | AFailOpen => (st, Raise OSError)
  | AFailWrite k =>
      (mk_mfs (Some (String.append (text_of (m_dedup st)) (substring 0 k line)))
              (m_invalid st) (m_reports st), Raise OSError)
  end.

(** Writing the file [name] of the output folder with mode ['w']: its
    previous content, if any, is replaced. *)
Fixpoint put_file (name : string) (v : written report_file)
         (l : list (string * written report_file)) : list (string * written report_file) :=
  match l with
  | [] => [(name, v)]
  | (n, v') :: r => if String.eqb n name then (name, v) :: r else (n, v') :: put_file name v r
  end.

(** The content of the file [name] of the output folder. *)
Fixpoint file_at (name : string) (l : list (string * written report_file))
  : option (written report_file) :=
  match l with
  | [] => None
  | (n, v) :: r => if String.eqb n name then Some v else file_at name r
  end.

(** [f"{file_date}_feed-summaries.md"] and [...html] *)
Definition md_name (day : string) : string := String.append day "_feed-summaries.md".
Definition html_name (day : string) : string := String.append day "_feed-summaries.html".

(** [read_feed_urls], on the text of the file: the '#' test is made on the
    raw line, before stripping. *)
Definition read_feed_urls (text : string) : list string :=
  map strip (filter (fun line => truthy (strip line) && negb (starts_hash line))
                    (file_lines text)).

(** [write_feed_urls]: the text of the file, one URL per line. *)
Definition write_feed_urls (urls : list string) : string :=
  String.concat "" (map (fun u => String.append u newline) urls).

(** Loop state of [main]: the files, [summaries] (each block with the link
    it was produced for) and [invalid_feeds]. *)
Record mstate := mk_mstate {
  ms_fs : mfs;
  ms_summaries : list (string * string);
  ms_invalid : list string
}.

(** The outcomes of [main]'s writes: [m_app n] is that of the [n]-th call
    of [save_processed_article] in the run (counting from 0), then those of
    writing the invalid-feeds file, the Markdown digest and the HTML
    digest. *)
Record mio := mk_mio {
  m_app : nat -> aio;
  m_inv_io : wio;
  m_md_io : wio;
  m_html_io : wio
}.

(** A write with mode ['w'] of [x]: the new content (the previous one,
    if any, when [open] fails) and whether it raised. *)
Definition write_w {A} (o : wio) (x : A) (old : option (written A)) : option (written A) * res unit :=
  match o with
  | WOk => (Some (Complete x), Ok tt)
  | WFailOpen => (old, Raise OSError)
  | WFailWrite => (Some (Truncated x), Raise OSError)
  end.

Section Main.
Variable backend : string -> reply.
Variable parse : string -> feed.
Variable outs : mio.

Definition fetch_valid_articles (url : string) (article_limit : Z)
           (processed : list string) : res (option (list article)) :=
  match valid_loop processed (slice_to (entries (parse url)) article_limit) with
  | Raise x => Raise x
  | Ok [] => Ok None
  | Ok l => Ok (Some l)
  end.

(** [for index, article in enumerate(articles, 1)]: a summary is appended
    to [summaries], then its link to the processed file; each earlier call
    of [save_processed_article] in the run came with one earlier summary,
    so [length (ms_summaries s)] numbers the call.  A failed append ends
    the script. *)
Fixpoint articles_loop (arts : list article) (s : mstate) : mstate * res unit :=
  match arts with
  | [] => (s, Ok tt)
  | a :: r =>
      match summarize_article (backend (a_content a)) with
      | Some sm =>
          if truthy sm then
            let sums := ms_summaries s ++ [(a_link a, md_block a sm)] in
            match save_processed_article (m_app outs (length (ms_summaries s))) (a_link a) (ms_fs s) with
            | (f, Ok _) => articles_loop r (mk_mstate f sums (ms_invalid s))
            | (f, Raise x) => (mk_mstate f sums (ms_invalid s), Raise x)
            end
          else articles_loop r s
      | None => articles_loop r s
      end
  end.

(** [for feed_url in feeds]; an exception ends the script. *)
Fixpoint mfeeds_loop (article_limit : Z) (processed : list string)
         (feeds : list string) (s : mstate) : mstate * res unit :=
  match feeds with
  | [] => (s, Ok tt)
  | u :: us =>
      match fetch_valid_articles u article_limit processed with
      | Raise x => (s, Raise x)
      | Ok (Some arts) =>
          match articles_loop arts s with
          | (s', Ok _) => mfeeds_loop article_limit processed us s'
          | (s', Raise x) => (s', Raise x)
          end
      | Ok None =>
          mfeeds_loop article_limit processed us
            (mk_mstate (ms_fs s) (ms_summaries s) (ms_invalid s ++ [u]))
      end
  end.

(** The end of [main]: [write_feed_urls(invalid_feeds_file, invalid_feeds)],
    then the Markdown and the HTML digests of the day; a failed write ends
    the script. *)
Definition write_outputs (day : string) (invalid : list string) (blocks : list string)
           (f : mfs) : mfs * res unit :=
  match write_w (m_inv_io outs) invalid (m_invalid f) with
  | (inv, Raise x) => (mk_mfs (m_dedup f) inv (m_reports f), Raise x)
  | (inv, Ok _) =>
      match write_w (m_md_io outs) (Markdown blocks) (file_at (md_name day) (m_reports f)) with
      | (None, r) => (mk_mfs (m_dedup f) inv (m_reports f), r)
      | (Some md, Raise x) =>
          (mk_mfs (m_dedup f) inv (put_file (md_name day) md (m_reports f)), Raise x)
      | (Some md, Ok _) =>
          let reps := put_file (md_name day) md (m_reports f) in
          match write_w (m_html_io outs) (Html blocks) (file_at (html_name day) reps) with
          | (None, r) => (mk_mfs (m_dedup f) inv reps, r)
          | (Some h, r) => (mk_mfs (m_dedup f) inv (put_file (html_name day) h reps), r)
          end
      end
  end.

(** [main()], given the probe and pull outcomes and the day it runs: the
    calls made, the summaries, the final files, and whether the script
    raised. *)
Definition main (article_limit : Z) (feeds : list string) (probe pull : res unit)
           (day : string) (st : mfs)
  : list AIFeeder.call * list (string * string) * mfs * res unit :=
  let '(cs, chk) := ensure_model_available probe pull in
  match chk with
  | Raise _ => (cs, [], st, Ok tt)
  | Ok _ =>
      match load_processed_articles (processed_lines (m_dedup st)) article_limit with
      | Raise x => (cs, [], st, Raise x)
      | Ok processed =>
          let '(s, r) := mfeeds_loop article_limit processed feeds (mk_mstate st [] []) in
          match r with
          | Raise x => (cs, ms_summaries s, ms_fs s, Raise x)
          | Ok _ =>
              let '(f, r') := write_outputs day (ms_invalid s) (map snd (ms_summaries s)) (ms_fs s) in
              (cs, ms_summaries s, f, r')
          end
      end
  end.
End Main.

End MainPy.

(** ** [RSSSummary.fetch_article_abstract] (AIFeeder.py) *)
Module FetchAbstract.

(** An element of the parsed page: tag name, attributes, and the text
    strings below it in document order. *)
Record element := mk_elem {
  tag : string; attrs : list (string * string); texts : list string
}.

(** A fetched page: its elements in document order and [str(soup)]. *)
Record page := mk_page { elements : list element; markup : string }.

Definition attr (el : element) (k : string) : option string :=
  match find (fun kv => String.eqb (fst kv) k) (attrs el) with
  | Some (_, v) => Some v
  | None => None
  end.

(** [attrs={k: v}] matching on a single-valued attribute. *)
Definition attr_is (el : element) (k v : string) : bool :=
  match attr el k with Some x => String.eqb x v | None => false end.

(** Whitespace-separated tokens: bs4 treats [class] as multi-valued. *)
Fixpoint split_ws_aux (cur : string) (s : string) : list string :=
  match s with
  | EmptyString => if truthy cur then [cur] else []
  | String c r =>
      if is_space c then (if truthy cur then [cur] else []) ++ split_ws_aux "" r
      else split_ws_aux (String.append cur (String c EmptyString)) r
  end.
Definition split_ws (s : string) : list string := split_ws_aux "" s.

Definition has_class (el : element) (c : string) : bool :=
  match attr el "class" with
  | Some v => String.eqb v c || existsb (String.eqb c) (split_ws v)
  | None => false
  end.

(** [tag.get_text()] and [tag.get_text(strip=True)] *)
Definition get_text (el : element) : string := String.concat "" (texts el).
Definition get_text_strip (el : element) : string :=
  String.concat "" (filter truthy (map strip (texts el))).

(** [str.lower()] on ASCII letters. *)
Definition lower_ascii (c : ascii) : ascii :=
  let n := nat_of_ascii c in
  if Nat.leb 65 n && Nat.leb n 90 then ascii_of_nat (n + 32) else c.
Fixpoint lower (s : string) : string :=
  match s with
  | EmptyString => EmptyString
  | String c r => String (lower_ascii c) (lower r)
  end.

(** [sub in s] *)
Fixpoint contains (sub s : string) : bool :=
  String.prefix sub s ||
  match s with EmptyString => false | String _ r => contains sub r end.

Inductive source :=
| Src_abstract | Src_div_abstract_class | Src_div_abstract_id | Src_section
| Src_p | Src_regex | Src_meta_description | Src_og_description.

(** The [abstract_sources] list, in the source's order. *)
Definition abstract_sources : list source :=
  [Src_abstract; Src_div_abstract_class; Src_div_abstract_id; Src_section;
   Src_p; Src_regex; Src_meta_description; Src_og_description].

(** What a finder returns when it does not return [None]: a tag, or a
    regex match object (represented by its group 1). Both are truthy. *)
Inductive found := FTag (el : element) | FMatch (group1 : string).

Section Finders.
(** [re.search(r'Abstract\s*[:\-]\s*(.*?)\s*(Introduction|1\.)', str(s),
    re.DOTALL | re.IGNORECASE)], as its group 1. *)
Variable re_abstract : string -> option string.

Definition find_tag (p : element -> bool) (pg : page) : option found :=
  option_map FTag (find p (elements pg)).

Definition finder (src : source) (pg : page) : option found :=
  match src with
  | Src_abstract => find_tag (fun el => String.eqb (tag el) "abstract") pg
  | Src_div_abstract_class =>
      find_tag (fun el => String.eqb (tag el) "div" && has_class el "abstract") pg
  | Src_div_abstract_id =>
      find_tag (fun el => String.eqb (tag el) "div" &&
                          attr_is el "id" "abstract") pg
  | Src_section =>
      find_tag (fun el => String.eqb (tag el) "section" &&
                          attr_is el "aria-labelledby" "abstract") pg
  | Src_p =>
      find_tag (fun el => String.eqb (tag el) "p" && contains "abstract" (lower (get_text el))) pg
  | Src_regex => option_map FMatch (re_abstract (markup pg))
  | Src_meta_description =>
      find_tag (fun el => String.eqb (tag el) "meta" &&
                          attr_is el "name" "description") pg
  | Src_og_description =>
      find_tag (fun el => String.eqb (tag el) "meta" &&
                          attr_is el "property" "og:description") pg
  end.

(** The value returned for the first truthy finder result; a mismatched
    result would raise inside the [try] and give [None]. *)
Definition extract (src : source) (r : found) : option string :=
  match src, r with
  | Src_regex, FMatch g => Some (strip g)
  | (Src_meta_description | Src_og_description), FTag el =>
      Some (strip (get_or (attr el "content") ""))
  | Src_regex, FTag _ => None
  | _, FTag el => Some (get_text_strip el)
  | _, FMatch _ => None
  end.

(** [for source_name, finder in abstract_sources: result = finder(soup);
     if result: return ...] *)
Fixpoint first_match (srcs : list source) (pg : page) : option string :=
  match srcs with
  | [] => None
  | src :: r =>
      match finder src pg with
      | Some f => extract src f
      | None => first_match r pg
      end
  end.

(** [fetch]: the page, or [None] for a [RequestException] or an error
    status ([raise_for_status]). *)
Definition fetch_article_abstract (fetch : string -> option page) (url : string)
  : option string :=
  match fetch url with
  | None => None
  | Some pg => first_match abstract_sources pg
  end.
End Finders.

End FetchAbstract.

(** ** Observations on runs, used in the statements below *)
Module Obs.
Import AIFeeder.

(** Largest number of feeds open at once (between [FeedBegin] and
    [FeedEnd]) along a trace, starting with [k] open. *)
Fixpoint max_open (k : nat) (tr : list event) : nat :=
  match tr with
  | [] => k
  | FeedBegin _ :: r => Nat.max (S k) (max_open (S k) r)
  | FeedEnd _ :: r => Nat.max k (max_open (pred k) r)
  | _ :: r => Nat.max k (max_open k r)
  end.

Definition max_in_flight (tr : list event) : nat := max_open 0 tr.

Definition is_bracket (ev : event) : bool :=
  match ev with FeedBegin _ | FeedEnd _ => true | _ => false end.

(** The backend with every reply equal to the sentinel text turned into an
    API error. *)
Definition sentinel_as_error (bk : string -> reply) : string -> reply :=
  fun c => match bk c with
           | Reply s => if String.eqb s failed_sentinel then RespErr 500 else Reply s
           | r => r
           end.

(** Printable, non-blank ASCII (codes 33 to 126), the characters of a
    typical URL. *)
Definition graphic (c : ascii) : bool :=
  Nat.leb 33 (nat_of_ascii c) && Nat.leb (nat_of_ascii c) 126.

Fixpoint all_graphic (s : string) : bool :=
  match s with
  | EmptyString => true
  | String c r => graphic c && all_graphic r
  end.

Fixpoint no_newline (s : string) : bool :=
  match s with
  | EmptyString => true
  | String c r => negb (Ascii.eqb c (ascii_of_nat 10)) && no_newline r
  end.

(** The text main.py's [save_processed_article] appends for the links
    [ls], in order, one line each. *)
Definition link_text (ls : list string) : string :=
  String.concat "" (map (fun l => String.append l MainPy.newline) ls).

(** The text [new] is the text [old] followed by the lines of the links
    [ls], in order, except that the line of the last link may be cut short
    (an append that failed part-way) or missing. *)
Definition appended_links (old new : string) (ls : list string) : Prop :=
  exists done p,
    new = String.append old (String.append (link_text done) p) /\
    ((done = ls /\ p = EmptyString) \/
     (exists l q, done ++ [l] = ls /\ String.append p q = String.append l MainPy.newline)).

(** The text is empty or its last character is a newline. *)
Fixpoint ends_with_newline (s : string) : bool :=
  match s with
  | EmptyString => true
  | String c EmptyString => Ascii.eqb c (ascii_of_nat 10)
  | String _ r => ends_with_newline r
  end.

(** No line break: neither a newline nor a carriage return. *)
Fixpoint no_line_break (s : string) : bool :=
  match s with
  | EmptyString => true
  | String c r =>
      negb (Ascii.eqb c (ascii_of_nat 10)) && negb (Ascii.eqb c (ascii_of_nat 13)) && no_line_break r
  end.

(** [fetch_valid_articles] returned [None]: the feed goes to [invalid_feeds]. *)
Definition no_valid (r : res (option (list MainPy.article))) : bool :=
  match r with Ok None => true | _ => false end.

Section Feed.
Variable abstract_of : string -> option string.
Variable backend : string -> reply.
Variable parse : string -> res feed.

(** The summaries every entry of [es] would give, cap ignored. *)
Definition produced_all (snap : list string) (es : list entry)
  : list (string * summary_result) :=
  flat_map (fun e => match article_step abstract_of backend snap e with
                     | Produced a r => [(a, r)]
                     | _ => []
                     end) es.

Definition step_raises (snap : list string) (e : entry) : bool :=
  match article_step abstract_of backend snap e with
  | StepRaised _ _ => true
  | _ => false
  end.

(** The feed was skipped (parse error, bozo) or its entry loop reached the
    end of the entries (neither the cap nor an exception stopped it). *)
Definition feed_ran_to_end (articles_per_feed : Z) (snap : list string) (u : string) : bool :=
  match parse u with
  | Raise _ => true
  | Ok f =>
      bozo f ||
      match exit (entries_loop abstract_of backend articles_per_feed snap 0 (entries f)) with
      | Exhausted => true
      | _ => false
      end
  end.
End Feed.

(** The probe reported "model not found" (HTTP 404). *)
Definition is_not_found (r : res unit) : bool :=
  match r with Raise (ResponseError c) => Z.eqb c 404 | _ => false end.

(** Projections of the result of [MainPy.main]. *)
Definition main_calls (o : list call * list (string * string) * MainPy.mfs * res unit) :=
  let '(cs, _, _, _) := o in cs.
Definition main_summaries (o : list call * list (string * string) * MainPy.mfs * res unit) :=
  let '(_, sums, _, _) := o in sums.
Definition main_files (o : list call * list (string * string) * MainPy.mfs * res unit) :=
  let '(_, _, f, _) := o in f.
Definition main_status (o : list call * list (string * string) * MainPy.mfs * res unit) :=
  let '(_, _, _, r) := o in r.
End Obs.

(** * Properties *)

(** ** Helper lemmas *)
Module Facts.
Import AIFeeder Obs.

Lemma mem_In (x : string) (l : list string) : mem x l = true <-> In x l.
Proof.
  unfold mem; rewrite existsb_exists; split.
  - intros (y & Hy & Heq); apply String.eqb_eq in Heq; subst; exact Hy.
  - intros H; exists x; split; [exact H | apply String.eqb_refl].
Qed.

Lemma mem_false_In (x : string) (l : list string) : mem x l = false <-> ~ In x l.
Proof.
  rewrite <- mem_In; destruct (mem x l); split; congruence.
Qed.

Lemma set_add_In (l : list string) (x y : string) :
  In y (set_add l x) <-> In y l \/ y = x.
Proof.
  unfold set_add; case_eq (mem x l); intros Hm.
  - apply mem_In in Hm; split; [tauto|]; intros [H|H]; [exact H | subst; exact Hm].
  - rewrite in_app_iff; simpl; split.
    + intros [H|[H|[]]]; auto.
    + intros [H|H]; auto.
Qed.

Lemma set_update_In (l xs : list string) (y : string) :
  In y (set_update l xs) <-> In y l \/ In y xs.
Proof.
  unfold set_update; revert l; induction xs as [|x xs IH]; intros l; simpl.
  - tauto.
  - rewrite IH, set_add_In; intuition (subst; auto).
Qed.

(** Every identifier that reaches resolution passed the filter. *)
Lemma article_step_attempted ab bk snap e a :
  match article_step ab bk snap e with
  | EmptyContent a' | SummaryFailed a' | Produced a' _ | StepRaised a' _ => a' = a
  | Ineligible => False
  end ->
  article_id e = Some a /\ truthy a = true /\ mem a snap = false.
Proof.
  unfold article_step; destruct (article_id e) as [aid|]; [|tauto].
  case_eq (truthy aid && negb (mem aid snap)); [|tauto].
  intros Hel; apply andb_true_iff in Hel as [Ht Hm]; apply negb_true_iff in Hm.
  destruct (resolve_content ab aid e) as [c|x].
  - destruct (negb (truthy c)); [intros ->; auto|].
    destruct (negb _); intros ->; auto.
  - intros ->; auto.
Qed.

Lemma entries_loop_filtered ab bk N snap :
  forall es count,
    (forall a r, In (a, r) (produced (entries_loop ab bk N snap count es)) -> mem a snap = false) /\
    (forall a, In a (attempts (entries_loop ab bk N snap count es)) -> mem a snap = false).
Proof.
  induction es as [|e es IH]; intros count; simpl; [split; intros; contradiction|].
  destruct (N <=? count)%Z; [simpl; split; intros; contradiction|].
  pose proof (article_step_attempted ab bk snap e) as Hs.
  destruct (article_step ab bk snap e) as [|a0|a0|a0 r0|a0 x] eqn:E; simpl.
  - apply IH.
  - destruct (IH count) as [H1 H2]; split; [exact H1|].
    intros a [<-|H]; [apply (Hs a0); reflexivity | auto].
  - destruct (IH count) as [H1 H2]; split; [exact H1|].
    intros a [<-|H]; [apply (Hs a0); reflexivity | auto].
  - destruct (IH (count + 1)%Z) as [H1 H2]; split.
    + intros a r [Heq|H]; [injection Heq as <- <-; apply (Hs a0); reflexivity | eauto].
    + intros a [<-|H]; [apply (Hs a0); reflexivity | auto].
  - split; [intros; contradiction|]. intros a [<-|[]]; apply (Hs a0); reflexivity.
Qed.

Lemma feeds_loop_filtered ab bk pa N snap feeds :
  (forall a r, In (a, r) (fst (feeds_loop ab bk pa N snap feeds)) -> mem a snap = false) /\
  (forall a, In (Attempt a) (snd (feeds_loop ab bk pa N snap feeds)) -> mem a snap = false).
Proof.
  induction feeds as [|u us IH]; simpl; [split; intros; contradiction|].
  destruct (process_feed ab bk pa N snap u) as [p t] eqn:Ep.
  destruct (feeds_loop ab bk pa N snap us) as [ps ts]; simpl in *.
  destruct IH as [IH1 IH2].
  unfold process_feed in Ep.
  destruct (pa u) as [f|x].
  2:{ injection Ep as <- <-; split; intros *; rewrite in_app_iff; simpl;
      intros [H|H]; intuition (try discriminate); eauto. }
  destruct (bozo f).
  { injection Ep as <- <-; split; intros *; rewrite in_app_iff; simpl;
      intros [H|H]; intuition (try discriminate); eauto. }
  injection Ep as <- <-.
  destruct (entries_loop_filtered ab bk N snap (entries f) 0) as [H1 H2].
  split; intros *; rewrite in_app_iff; [intros [H|H]; eauto|].
  intros [H|H]; [|eauto].
  simpl in H; destruct H as [H|H]; [discriminate|].
  apply in_app_iff in H as [H|[H|[]]]; [|discriminate].
  apply in_map_iff in H as (a' & Ha & Hin); injection Ha as ->; eauto.
Qed.

(** main.py: every valid article passed the link filter. *)
Lemma valid_loop_filtered processed :
  forall es arts, MainPy.valid_loop processed es = Ok arts ->
  forall a, In a arts -> mem (MainPy.a_link a) processed = false.
Proof.
  induction es as [|e es IH]; simpl; intros arts H.
  - injection H as <-; intros _ [].
  - case_eq (truthy (get_or (e_link e) "No_URL_available") &&
             negb (mem (get_or (e_link e) "No_URL_available") processed));
      intros Hel; rewrite Hel in H; [|eauto].
    apply andb_true_iff in Hel as [_ Hm]; apply negb_true_iff in Hm.
    destruct (MainPy.entry_content e) as [c|x]; [|discriminate].
    destruct (truthy (Py.strip c)); [|eauto].
    destruct (MainPy.valid_loop processed es) as [r|x] eqn:Er; [|discriminate].
    injection H as <-; intros a [<-|Ha]; [exact Hm | eauto].
Qed.

Lemma save_keeps_others o link st :
  MainPy.m_invalid (fst (MainPy.save_processed_article o link st)) = MainPy.m_invalid st /\
  MainPy.m_reports (fst (MainPy.save_processed_article o link st)) = MainPy.m_reports st.
Proof. destruct o; split; reflexivity. Qed.

Lemma articles_loop_spec bk outs :
  forall arts s, exists added,
    let '(s', _) := MainPy.articles_loop bk outs arts s in
    MainPy.ms_summaries s' = MainPy.ms_summaries s ++ added /\
    (forall l b, In (l, b) added -> exists a, In a arts /\ MainPy.a_link a = l) /\
    MainPy.m_reports (MainPy.ms_fs s') = MainPy.m_reports (MainPy.ms_fs s) /\
    MainPy.m_invalid (MainPy.ms_fs s') = MainPy.m_invalid (MainPy.ms_fs s) /\
    MainPy.ms_invalid s' = MainPy.ms_invalid s /\
    (added = [] -> MainPy.ms_fs s' = MainPy.ms_fs s).
Proof.
  induction arts as [|a r IH]; intros s; cbn [MainPy.articles_loop].
  - exists []; rewrite app_nil_r; repeat split; auto; intros l b [].
  - destruct (MainPy.summarize_article (bk (MainPy.a_content a))) as [sm|].
    + destruct (truthy sm).
      * destruct (save_keeps_others (MainPy.m_app outs (length (MainPy.ms_summaries s)))
                    (MainPy.a_link a) (MainPy.ms_fs s)) as [K1 K2].
        destruct (MainPy.save_processed_article (MainPy.m_app outs (length (MainPy.ms_summaries s)))
                    (MainPy.a_link a) (MainPy.ms_fs s)) as [f [u|x]]; cbn [fst] in K1, K2.
        -- destruct (IH (MainPy.mk_mstate f (MainPy.ms_summaries s ++ [(MainPy.a_link a, MainPy.md_block a sm)])
                                         (MainPy.ms_invalid s))) as [added H].
           exists ((MainPy.a_link a, MainPy.md_block a sm) :: added).
           destruct (MainPy.articles_loop bk outs r _) as [s' r'].
           destruct H as (H1 & H2 & H3 & H4 & H5 & _); cbn [MainPy.ms_summaries MainPy.ms_fs MainPy.ms_invalid] in *.
           repeat split.
           ++ rewrite H1, <- app_assoc; reflexivity.
           ++ intros l b [Heq|Hin]; [injection Heq as <- _; exists a; split; [left|]; reflexivity|].
              destruct (H2 l b Hin) as (a' & ? & ?); exists a'; split; [right|]; assumption.
           ++ rewrite H3; exact K2.
           ++ rewrite H4; exact K1.
           ++ exact H5.
           ++ discriminate.
        -- exists [(MainPy.a_link a, MainPy.md_block a sm)]; cbn [MainPy.ms_summaries MainPy.ms_fs MainPy.ms_invalid].
           repeat split; auto.
           ++ intros l b [Heq|[]]; injection Heq as <- _; exists a; split; [left|]; reflexivity.
           ++ discriminate.
      * destruct (IH s) as [added H]; exists added.
        destruct (MainPy.articles_loop bk outs r s) as [s' r'].
        destruct H as (H1 & H2 & H3 & H4 & H5 & H6); repeat split; auto.
        intros l b Hin; destruct (H2 l b Hin) as (a' & ? & ?); exists a'; split; [right|]; assumption.
    + destruct (IH s) as [added H]; exists added.
      destruct (MainPy.articles_loop bk outs r s) as [s' r'].
      destruct H as (H1 & H2 & H3 & H4 & H5 & H6); repeat split; auto.
      intros l b Hin; destruct (H2 l b Hin) as (a' & ? & ?); exists a'; split; [right|]; assumption.
Qed.

Lemma mfeeds_loop_spec bk pm outs limit processed :
  forall feeds s, exists added,
    let '(s', _) := MainPy.mfeeds_loop bk pm outs limit processed feeds s in
    MainPy.ms_summaries s' = MainPy.ms_summaries s ++ added /\
    (forall l b, In (l, b) added -> mem l processed = false) /\
    MainPy.m_reports (MainPy.ms_fs s') = MainPy.m_reports (MainPy.ms_fs s) /\
    MainPy.m_invalid (MainPy.ms_fs s') = MainPy.m_invalid (MainPy.ms_fs s) /\
    (added = [] -> MainPy.ms_fs s' = MainPy.ms_fs s).
Proof.
  induction feeds as [|u us IH]; intros s; cbn [MainPy.mfeeds_loop].
  - exists []; rewrite app_nil_r; repeat split; auto; intros l b [].
  - unfold MainPy.fetch_valid_articles.
    destruct (MainPy.valid_loop processed (MainPy.slice_to (entries (pm u)) limit))
      as [arts|x] eqn:Ev.
    2:{ exists []; rewrite app_nil_r; repeat split; auto; intros l b []. }
    destruct arts as [|a0 arts0].
    + destruct (IH (MainPy.mk_mstate (MainPy.ms_fs s) (MainPy.ms_summaries s)
                                     (MainPy.ms_invalid s ++ [u]))) as [added Hadd].
      exists added.
      destruct (MainPy.mfeeds_loop bk pm outs limit processed us _) as [s' r'].
      exact Hadd.
    + destruct (articles_loop_spec bk outs (a0 :: arts0) s) as [added1 A].
      destruct (MainPy.articles_loop bk outs (a0 :: arts0) s) as [s1 [v|y]];
        destruct A as (A1 & A2 & A3 & A4 & _ & A6).
      * destruct (IH s1) as [added2 Hadd].
        exists (added1 ++ added2).
        destruct (MainPy.mfeeds_loop bk pm outs limit processed us s1) as [s' r'].
        destruct Hadd as (B1 & B2 & B3 & B4 & B5).
        repeat split.
        -- rewrite B1, A1, app_assoc; reflexivity.
        -- intros l b Hin; apply in_app_iff in Hin as [Hin|Hin]; [|eauto].
           destruct (A2 l b Hin) as (a & Ha & <-).
           exact (valid_loop_filtered processed _ _ Ev a Ha).
        -- rewrite B3, A3; reflexivity.
        -- rewrite B4, A4; reflexivity.
        -- intros Hnil; apply app_eq_nil in Hnil as [-> ->].
           rewrite B5, A6; reflexivity.
      * exists added1; repeat split; auto.
        intros l b Hin; destruct (A2 l b Hin) as (a & Ha & <-).
        exact (valid_loop_filtered processed _ _ Ev a Ha).
Qed.

(** The pipeline sees the backend only through [summarize_article]. *)
Section Ext.
Variables (ab : string -> option string) (bk1 bk2 : string -> reply).
Hypothesis Hbk : forall c, summarize_article (bk1 c) = summarize_article (bk2 c).

Lemma article_step_ext snap e : article_step ab bk1 snap e = article_step ab bk2 snap e.
Proof.
  unfold article_step; destruct (article_id e) as [a|]; [|reflexivity].
  destruct (_ && _); [|reflexivity].
  destruct (resolve_content ab a e) as [c|x]; [|reflexivity].
  rewrite Hbk; reflexivity.
Qed.

Lemma entries_loop_ext N snap :
  forall es count, entries_loop ab bk1 N snap count es = entries_loop ab bk2 N snap count es.
Proof.
  induction es as [|e es IH]; intros count; simpl; [reflexivity|].
  rewrite article_step_ext.
  destruct (N <=? count)%Z; [reflexivity|].
  destruct (article_step ab bk2 snap e); rewrite ?IH; reflexivity.
Qed.

Lemma feeds_loop_ext pa N snap :
  forall feeds, feeds_loop ab bk1 pa N snap feeds = feeds_loop ab bk2 pa N snap feeds.
Proof.
  induction feeds as [|u us IH]; simpl; [reflexivity|].
  unfold process_feed; rewrite IH.
  destruct (pa u) as [f|x]; [rewrite entries_loop_ext|]; reflexivity.
Qed.

Lemma run_ext pa N feeds w st : run ab bk1 pa N feeds w st = run ab bk2 pa N feeds w st.
Proof. unfold run, process_feeds; rewrite feeds_loop_ext; reflexivity. Qed.
End Ext.

Lemma json_strings_ok : forall items l, json_strings items = Ok l ->
  l = stored_ids (Some (JsonArray items)).
Proof.
  induction items as [|[s|] r IH]; simpl; intros l H.
  - injection H as <-; reflexivity.
  - destruct (json_strings r) as [l'|x]; [|discriminate].
    injection H as <-; f_equal; apply IH; reflexivity.
  - discriminate.
Qed.

(** A successful load returns exactly the identifiers stored in the file. *)
Lemma load_try_ok_stored f rd lg s :
  load_try f rd = (lg, Ok s) -> forall x, In x s <-> In x (stored_ids f).
Proof.
  destruct f as [[items|]|]; simpl; [destruct rd| |]; try discriminate.
  - destruct (json_strings items) as [l|] eqn:E; [|discriminate].
    intros H; injection H as _ <-; intros x.
    rewrite set_update_In, (json_strings_ok _ _ E); simpl; tauto.
  - destruct rd; discriminate.
  - intros H; injection H as _ <-; reflexivity.
Qed.

Lemma stored_ids_written l : stored_ids (Some (JsonArray (map JStr l))) = l.
Proof. induction l as [|x l IH]; simpl; [reflexivity|]; f_equal; exact IH. Qed.

Lemma summarize_sentinel_as_error bk c :
  summarize_article (sentinel_as_error bk c) = summarize_article (bk c).
Proof.
  unfold sentinel_as_error; destruct (bk c) as [s| |]; try reflexivity.
  case_eq (String.eqb s failed_sentinel); intros E; [|reflexivity].
  apply String.eqb_eq in E; subst; reflexivity.
Qed.
End Facts.

(** ** The end of main.py's [main]: the output files *)
Module OutFacts.
Import MainPy.

Lemma append_cancel_l d a b : String.append d a = String.append d b -> a = b.
Proof. induction d as [|c d IH]; simpl; [auto|]; intros H; injection H; exact IH. Qed.

Lemma md_ne_html day : md_name day <> html_name day.
Proof. unfold md_name, html_name; intros H; apply append_cancel_l in H; discriminate. Qed.

Lemma file_at_put_same n v l : file_at n (put_file n v l) = Some v.
Proof.
  induction l as [|[m v'] r IH]; simpl; [rewrite String.eqb_refl; reflexivity|].
  destruct (String.eqb m n) eqn:E; simpl; [rewrite String.eqb_refl; reflexivity|].
  rewrite E; exact IH.
Qed.

Lemma file_at_put_other n m v l : n <> m -> file_at m (put_file n v l) = file_at m l.
Proof.
  intros Hne; apply String.eqb_neq in Hne.
  induction l as [|[k v'] r IH]; simpl; [rewrite Hne; reflexivity|].
  destruct (String.eqb k n) eqn:E; simpl.
  - apply String.eqb_eq in E; subst k; rewrite Hne; reflexivity.
  - destruct (String.eqb k m); [reflexivity|exact IH].
Qed.

Lemma write_outputs_dedup outs day inv blocks f :
  m_dedup (fst (write_outputs outs day inv blocks f)) = m_dedup f.
Proof.
  unfold write_outputs, write_w.
  destruct (m_inv_io outs); cbn; try reflexivity;
  destruct (m_md_io outs); cbn; try reflexivity;
  try destruct (file_at (md_name day) (m_reports f)); cbn; try reflexivity;
  destruct (m_html_io outs); cbn; try reflexivity;
  destruct (file_at _ _); reflexivity.
Qed.

Lemma write_outputs_ok outs day inv blocks f :
  snd (write_outputs outs day inv blocks f) = Ok tt ->
  fst (write_outputs outs day inv blocks f) =
    mk_mfs (m_dedup f) (Some (Complete inv))
      (put_file (html_name day) (Complete (Html blocks))
         (put_file (md_name day) (Complete (Markdown blocks)) (m_reports f))).
Proof.
  unfold write_outputs, write_w.
  destruct (m_inv_io outs); cbn; try discriminate;
  destruct (m_md_io outs); cbn; try discriminate;
  try (destruct (file_at (md_name day) (m_reports f)); cbn; discriminate);
  destruct (m_html_io outs); cbn; try discriminate; try reflexivity;
  destruct (file_at _ _); discriminate.
Qed.
End OutFacts.

(** ** Claims *)
Import AIFeeder Obs.

(** C1 (No double-report).  For both variants, no summary produced by a run
    is for an identifier of the dedup set loaded at the start of the run; in
    AIFeeder.py such an identifier is not even attempted (no content
    resolution, no summarization). *)
Theorem C1_no_double_report :
  (forall ab bk pa N feeds w st a,
      In a (loaded_snapshot w st) ->
      (forall r, ~ In (a, r) (results (run ab bk pa N feeds w st))) /\
      ~ In (Attempt a) (trace (run ab bk pa N feeds w st))) /\
  (forall bk pm outs limit feeds probe pull day st processed link,
      MainPy.load_processed_articles (MainPy.processed_lines (MainPy.m_dedup st)) limit = Ok processed ->
      In link processed ->
      forall b, ~ In (link, b) (main_summaries (MainPy.main bk pm outs limit feeds probe pull day st))).
Proof.
  split.
  - intros ab bk pa N feeds w st a Hin.
    apply Facts.mem_In in Hin.
    unfold run.
    destruct (_check_model_accessible (probe w) (pull_r w) (reprobe w)) as [cs chk].
    destruct chk as [u|x]; simpl; [|split; [intros r []|intros []]].
    unfold process_feeds.
    destruct (Facts.feeds_loop_filtered ab bk pa N (loaded_snapshot w st) feeds) as [H1 H2].
    destruct (feeds_loop ab bk pa N (loaded_snapshot w st) feeds) as [sums tr].
    simpl in H1, H2.
    destruct sums; simpl;
      (split; [intros r Hr; try contradiction; apply H1 in Hr; congruence
              | intros Ht; apply H2 in Ht; congruence]).
  - intros bk pm outs limit feeds probe pull day st processed link Hload Hin b.
    apply Facts.mem_In in Hin.
    unfold MainPy.main.
    destruct (MainPy.ensure_model_available probe pull) as [cs chk].
    destruct chk as [u|x]; [|simpl; tauto].
    rewrite Hload.
    destruct (Facts.mfeeds_loop_spec bk pm outs limit processed feeds (MainPy.mk_mstate st [] []))
      as [added Hadd].
    destruct (MainPy.mfeeds_loop bk pm outs limit processed feeds _) as [s' r].
    destruct Hadd as (H1 & H2 & _).
    simpl in H1.
    assert (Hs : ~ In (link, b) (MainPy.ms_summaries s')).
    { rewrite H1; simpl; intros Hl; specialize (H2 _ _ Hl); congruence. }
    destruct r; [destruct (MainPy.write_outputs _ _ _ _ _) as [f r']|]; exact Hs.
Qed.

(** Instance of C1 on a concrete run: a dedup file holding "a", a feed whose
    entries are "a" and "b". *)
Lemma C1_witness :
  let ent := fun i => mk_entry (Some i) (Some i) (Some "t") (Some "body") None None in
  let pa := fun _ : string => Ok (mk_feed false [ent "a"; ent "b"]) in
  let w := mk_world IoOk (Ok tt) (Ok tt) (Ok tt) WOk WOk in
  let st := mk_fs (Some (JsonArray [JStr "a"])) [] in
  let dedup := Some (String.append "a" MainPy.newline) in
  In "a" (loaded_snapshot w st) /\
  ~ In (Attempt "a") (trace (run (fun _ => None) (fun _ => Reply "s") pa 5%Z ["f"] w st)) /\
  MainPy.load_processed_articles (MainPy.processed_lines dedup) 5%Z = Ok ["a"] /\
  ~ In ("a", "x") (main_summaries (MainPy.main (fun _ => Reply "s")
                     (fun _ => mk_feed false [ent "a"]) (MainPy.mk_mio (fun _ => AOk) WOk WOk WOk)
                     5%Z ["f"] (Ok tt) (Ok tt) "2024-01-01"
                     (MainPy.mk_mfs dedup None []))).
Proof.
  intros ent pa w st dedup.
  split; [vm_compute; left; reflexivity|].
  split; [apply (proj1 C1_no_double_report (fun _ => None) (fun _ => Reply "s") pa 5%Z ["f"] w st "a");
          vm_compute; left; reflexivity|].
  split; [reflexivity|].
  apply (proj2 C1_no_double_report (fun _ => Reply "s") (fun _ => mk_feed false [ent "a"])
           (MainPy.mk_mio (fun _ => AOk) WOk WOk WOk) 5%Z ["f"]
           (Ok tt) (Ok tt) "2024-01-01" (MainPy.mk_mfs dedup None []) ["a"] "a");
    [reflexivity | left; reflexivity].
Defined.

(** C5 (Fail-open dedup load).  [_load_processed] returns a set for every
    state of the file and every outcome of the lock/open: the empty set when
    the file does not exist, and, when reading or parsing raises, the empty
    set with an error line appended to the log. *)
Theorem C5_load_fail_open :
  forall (f : option file_content) (rd : io),
    (exists lg s, _load_processed f rd = (lg, Ok s)) /\
    (f = None -> snd (_load_processed f rd) = Ok []) /\
    (forall x, snd (load_try f rd) = Raise x ->
       _load_processed f rd =
         (fst (load_try f rd) ++ [LogError "Failed to load processed articles"], Ok [])).
Proof.
  intros f rd; unfold _load_processed.
  destruct (load_try f rd) as [lg [s|x]] eqn:E; simpl.
  - split; [eauto|]; split; [|discriminate].
    intros ->; simpl in E; injection E as _ <-; reflexivity.
  - split; [eauto|]; split; [|reflexivity].
    intros ->; reflexivity.
Qed.

(** A file that is not JSON: the load returns the empty set and logs. *)
Lemma C5_witness :
  _load_processed (Some NotJson) IoOk = ([LogError "Failed to load processed articles"], Ok []) /\
  snd (_load_processed None IoFail) = Ok [].
Proof.
  split.
  - apply (proj2 (proj2 (C5_load_fail_open (Some NotJson) IoOk)) JSONDecodeError).
    reflexivity.
  - apply (proj1 (proj2 (C5_load_fail_open None IoFail))); reflexivity.
Defined.

(** C10 (Sentinel string).  An eligible entry whose resolved content is
    non-empty and whose backend reply is exactly the sentinel text is
    skipped as a failed summarization (no summary, identifier not added to
    [current_processed]); and a run cannot tell such a reply from a backend
    error: replacing every sentinel reply by an API error leaves the whole
    run unchanged. *)
Theorem C10_sentinel_reply_is_failure :
  (forall ab bk snap e aid c,
      article_id e = Some aid -> truthy aid = true -> mem aid snap = false ->
      resolve_content ab aid e = Ok c -> truthy c = true ->
      bk c = Reply failed_sentinel ->
      article_step ab bk snap e = SummaryFailed aid) /\
  (forall ab bk pa N feeds w st,
      run ab bk pa N feeds w st = run ab (sentinel_as_error bk) pa N feeds w st).
Proof.
  split.
  - intros ab bk snap e aid c Hid Ht Hm Hc Hne Hbk.
    unfold article_step; rewrite Hid, Ht, Hm; simpl.
    rewrite Hc, Hne, Hbk; simpl.
    reflexivity.
  - intros; apply Facts.run_ext; intros c.
    symmetry; apply Facts.summarize_sentinel_as_error.
Qed.

Lemma C10_witness :
  let e := mk_entry (Some "https://x/1") None (Some "t") (Some "body") None None in
  article_step (fun _ => None) (fun _ => Reply failed_sentinel) [] e = SummaryFailed "https://x/1".
Proof.
  intros e.
  apply ((proj1 C10_sentinel_reply_is_failure) (fun _ => None) (fun _ => Reply failed_sentinel)
           [] e "https://x/1" "body"); reflexivity.
Defined.

(** C2, as stated, fails on main.py: a run with no feed produces no summary
    but still writes the Markdown and HTML digests. *)
Lemma C2_counterexample :
  let o := MainPy.main (fun _ => Reply "s") (fun _ => mk_feed false [])
                       (MainPy.mk_mio (fun _ => AOk) WOk WOk WOk) 5%Z [] (Ok tt) (Ok tt)
                       "2024-01-01" (MainPy.mk_mfs None None []) in
  main_summaries o = [] /\
  MainPy.file_at (MainPy.md_name "2024-01-01") (MainPy.m_reports (main_files o)) =
    Some (Complete (MainPy.Markdown [])) /\
  MainPy.file_at (MainPy.html_name "2024-01-01") (MainPy.m_reports (main_files o)) =
    Some (Complete (MainPy.Html [])).
Proof. split; [|split]; reflexivity. Qed.

(** C2 (amended).  AIFeeder.py: a run that produces no summary (every entry
    skipped, none eligible, or the model check aborted the run) leaves the
    dedup file and the reports exactly as they were.  main.py: such a run
    leaves its dedup file as it was, but once its model check has passed and
    the script completes it writes an empty Markdown and an empty HTML
    digest under the day's file names, replacing the digests an earlier run
    of the same day wrote there, and no other digest. *)
Theorem C2_no_trace_when_nothing_produced :
  (forall ab bk pa N feeds w st,
      results (run ab bk pa N feeds w st) = [] -> final (run ab bk pa N feeds w st) = st) /\
  (forall bk pm outs limit feeds probe pull day st,
      let o := MainPy.main bk pm outs limit feeds probe pull day st in
      main_summaries o = [] ->
      MainPy.m_dedup (main_files o) = MainPy.m_dedup st /\
      (snd (MainPy.ensure_model_available probe pull) = Ok tt -> main_status o = Ok tt ->
       MainPy.file_at (MainPy.md_name day) (MainPy.m_reports (main_files o)) =
         Some (Complete (MainPy.Markdown [])) /\
       MainPy.file_at (MainPy.html_name day) (MainPy.m_reports (main_files o)) =
         Some (Complete (MainPy.Html [])) /\
       (forall n, n <> MainPy.md_name day -> n <> MainPy.html_name day ->
          MainPy.file_at n (MainPy.m_reports (main_files o)) = MainPy.file_at n (MainPy.m_reports st)))).
Proof.
  split.
  - intros ab bk pa N feeds w st; unfold run.
    destruct (_check_model_accessible (probe w) (pull_r w) (reprobe w)) as [cs [u|x]];
      simpl; [|reflexivity].
    unfold process_feeds.
    destruct (feeds_loop ab bk pa N (loaded_snapshot w st) feeds) as [[|s0 sums] tr];
      simpl; [reflexivity|discriminate].
  - intros bk pm outs limit feeds probe pull day st o; subst o; unfold MainPy.main.
    destruct (MainPy.ensure_model_available probe pull) as [cs [u|x]]; simpl;
      [|intros _; split; [reflexivity|discriminate]].
    destruct (MainPy.load_processed_articles (MainPy.processed_lines (MainPy.m_dedup st)) limit)
      as [processed|x]; simpl; [|intros _; split; [reflexivity|discriminate]].
    destruct (Facts.mfeeds_loop_spec bk pm outs limit processed feeds (MainPy.mk_mstate st [] []))
      as [added Hadd].
    destruct (MainPy.mfeeds_loop bk pm outs limit processed feeds _) as [s' r].
    destruct Hadd as (H1 & _ & _ & _ & H5); simpl in H1.
    destruct r as [u'|x].
    + pose proof (OutFacts.write_outputs_dedup outs day (MainPy.ms_invalid s')
                    (map snd (MainPy.ms_summaries s')) (MainPy.ms_fs s')) as Hd.
      pose proof (OutFacts.write_outputs_ok outs day (MainPy.ms_invalid s')
                    (map snd (MainPy.ms_summaries s')) (MainPy.ms_fs s')) as Hw.
      destruct (MainPy.write_outputs outs day (MainPy.ms_invalid s')
                  (map snd (MainPy.ms_summaries s')) (MainPy.ms_fs s')) as [f r'].
      unfold main_summaries, main_files, main_status; cbn [fst snd] in Hd, Hw |- *; intros Hs.
      assert (Ha : added = []) by (rewrite <- H1; exact Hs).
      rewrite (H5 Ha) in Hd, Hw; rewrite Hs in Hw.
      split; [exact Hd|]; intros _ Hr; rewrite (Hw Hr); cbn [MainPy.m_reports map].
      split; [|split].
      * rewrite OutFacts.file_at_put_other by (intros E; symmetry in E; exact (OutFacts.md_ne_html day E)).
        apply OutFacts.file_at_put_same.
      * apply OutFacts.file_at_put_same.
      * intros n Hm Hh.
        rewrite OutFacts.file_at_put_other by (intros E; exact (Hh (eq_sym E))).
        rewrite OutFacts.file_at_put_other by (intros E; exact (Hm (eq_sym E))).
        reflexivity.
    + simpl; intros Hs.
      assert (Ha : added = []) by (rewrite <- H1; exact Hs).
      rewrite (H5 Ha); split; [reflexivity|discriminate].
Qed.

(** A run whose only entry fails to summarize: nothing is written. *)
Lemma C2_witness :
  let ent := mk_entry (Some "a") (Some "a") (Some "t") (Some "body") None None in
  let w := mk_world IoOk (Ok tt) (Ok tt) (Ok tt) WOk WOk in
  let st := mk_fs (Some (JsonArray [JStr "z"])) [] in
  final (run (fun _ => None) (fun _ => RespErr 500) (fun _ => Ok (mk_feed false [ent]))
             2%Z ["f"] w st) = st.
Proof.
  intros ent w st.
  apply (proj1 C2_no_trace_when_nothing_produced); reflexivity.
Defined.

(** C7, as stated, fails on main.py: after a 404 the model is pulled and
    not probed again. *)
Lemma C7_counterexample :
  MainPy.ensure_model_available (Raise (ResponseError 404)) (Ok tt) = ([Chat; Pull], Ok tt).
Proof. reflexivity. Qed.

(** C7 (amended).  AIFeeder.py: one probe; after a 404 and only then, one
    pull and, if the pull succeeds, one re-probe; the run goes on iff the
    probe, or the pull and re-probe after a 404, succeed; otherwise it
    raises with no feed work, no summary and no file touched.  main.py:
    after a 404 it pulls without re-probing, and a failure of the check
    makes [main] return before any feed is read. *)
Theorem C7_model_readiness :
  (forall ab bk pa N feeds w st,
      let o := run ab bk pa N feeds w st in
      calls o = (if is_not_found (probe w)
                 then match pull_r w with Ok _ => [Chat; Pull; Chat] | Raise _ => [Chat; Pull] end
                 else [Chat]) /\
      (status o = Ok tt <->
       probe w = Ok tt \/ (is_not_found (probe w) = true /\ pull_r w = Ok tt /\ reprobe w = Ok tt)) /\
      (status o <> Ok tt -> trace o = [] /\ results o = [] /\ final o = st)) /\
  (forall probe pull,
      fst (MainPy.ensure_model_available probe pull) =
        (if is_not_found probe then [Chat; Pull] else [Chat])) /\
  (forall bk pm outs limit feeds probe pull day st,
      snd (MainPy.ensure_model_available probe pull) <> Ok tt ->
      let o := MainPy.main bk pm outs limit feeds probe pull day st in
      main_summaries o = [] /\ main_files o = st).
Proof.
  split; [|split].
  - intros ab bk pa N feeds w st o; subst o; unfold run.
    destruct (probe w) as [[]|x] eqn:Ep.
    + simpl. destruct (process_feeds ab bk pa N (loaded_snapshot w st) feeds (report_io w) (save_io w) st)
        as [[sums tr] st']; simpl.
      split; [reflexivity|]; split; [tauto|]; intros H; exfalso; apply H; reflexivity.
    + destruct x as [| | | |code| |]; simpl;
        try (split; [reflexivity|]; split; [split; [discriminate|intros [H|(H&_)]; discriminate]|];
             intros _; repeat split; fail).
      destruct (code =? 404)%Z eqn:E404; simpl.
      * destruct (pull_r w) as [[]|y]; simpl.
        -- destruct (reprobe w) as [[]|z]; simpl.
           ++ destruct (process_feeds ab bk pa N (loaded_snapshot w st) feeds (report_io w) (save_io w) st)
                as [[sums tr] st']; simpl.
              split; [reflexivity|]; split; [tauto|]; intros H; exfalso; apply H; reflexivity.
           ++ split; [reflexivity|]; split; [|intros _; repeat split].
              split; [discriminate|intros [H|(_&_&H)]; discriminate].
        -- split; [reflexivity|]; split; [|intros _; repeat split].
           split; [discriminate|intros [H|(_&H&_)]; discriminate].
      * split; [reflexivity|]; split; [|intros _; repeat split].
        split; [discriminate|intros [H|(H&_)]; discriminate].
  - intros probe pull; destruct probe as [[]|x]; [reflexivity|].
    destruct x; try reflexivity; simpl.
    destruct (status_code =? 404)%Z; [destruct pull|]; reflexivity.
  - intros bk pm outs limit feeds probe pull day st Hchk o; subst o; unfold MainPy.main.
    destruct (MainPy.ensure_model_available probe pull) as [cs [[]|x]]; simpl in *;
      [contradiction|split; reflexivity].
Qed.

Lemma C7_witness :
  let w := mk_world IoOk (Raise (ResponseError 404)) (Raise OSError) (Ok tt) WOk WOk in
  snd (MainPy.ensure_model_available (Raise OtherError) (Ok tt)) <> Ok tt /\
  main_files (MainPy.main (fun _ => Reply "s") (fun _ => mk_feed false [])
                (MainPy.mk_mio (fun _ => AOk) WOk WOk WOk) 1%Z ["f"]
                (Raise OtherError) (Ok tt) "2024-01-01" (MainPy.mk_mfs None None [])) =
    MainPy.mk_mfs None None [] /\
  final (run (fun _ => None) (fun _ => Reply "s") (fun _ => Ok (mk_feed false [])) 1%Z ["f"] w
             (mk_fs None [])) = mk_fs None [].
Proof.
  intros w.
  split; [discriminate|]; split.
  - apply (proj2 (proj2 C7_model_readiness) (fun _ => Reply "s") (fun _ => mk_feed false [])
             (MainPy.mk_mio (fun _ => AOk) WOk WOk WOk) 1%Z ["f"]
             (Raise OtherError) (Ok tt) "2024-01-01" (MainPy.mk_mfs None None [])).
    discriminate.
  - apply (proj2 (proj2 (proj1 C7_model_readiness (fun _ => None) (fun _ => Reply "s")
                 (fun _ => Ok (mk_feed false [])) 1%Z ["f"] w (mk_fs None []))));
      discriminate.
Defined.

(** C4, as stated, fails twice.  When the load fails: the file holds "b"
    next to a nested array, [set(...)] raises, the run starts from the
    empty set, and the commit overwrites the file with the new identifier
    "a" only.  When the commit fails after [open(..., 'w')] has truncated
    the file: the file that held "b" stores nothing afterwards. *)
Lemma C4_counterexample :
  let ent := mk_entry (Some "a") (Some "a") (Some "t") (Some "body") None None in
  let w := mk_world IoOk (Ok tt) (Ok tt) (Ok tt) WOk WOk in
  let st := mk_fs (Some (JsonArray [JStr "b"; JUnhashable])) [] in
  let o := run (fun _ => None) (fun _ => Reply "s") (fun _ => Ok (mk_feed false [ent]))
               2%Z ["f"] w st in
  let w2 := mk_world IoOk (Ok tt) (Ok tt) (Ok tt) WOk WFailWrite in
  let st2 := mk_fs (Some (JsonArray [JStr "b"])) [] in
  let o2 := run (fun _ => None) (fun _ => Reply "s") (fun _ => Ok (mk_feed false [ent]))
                2%Z ["f"] w2 st2 in
  In "b" (stored_ids (dedup_file st)) /\
  stored_ids (dedup_file (final o)) = ["a"] /\
  In "b" (stored_ids (dedup_file st2)) /\
  stored_ids (dedup_file (final o2)) = [].
Proof. split; [left; reflexivity | split; [reflexivity | split; [left|]; reflexivity]]. Qed.

(** C4 (amended).  When the dedup file was loaded successfully (it did not
    exist, or it was read and parsed): an identifier stored before is still
    stored after iff the run produced no summary or the commit did not fail
    after truncating the file; an identifier not stored before is stored
    after iff the run produced a summary for it and the write of the file
    succeeded; and a commit that fails after truncating the file leaves a
    file that stores no identifier. *)
Theorem C4_dedup_grows_when_loaded :
  forall ab bk pa N feeds w st lg s,
    load_try (dedup_file st) (load_io w) = (lg, Ok s) ->
    let o := run ab bk pa N feeds w st in
    (forall x, In x (stored_ids (dedup_file st)) ->
       (In x (stored_ids (dedup_file (final o))) <-> save_io w <> WFailWrite \/ results o = [])) /\
    (forall x, ~ In x (stored_ids (dedup_file st)) ->
       (In x (stored_ids (dedup_file (final o))) <->
        save_io w = WOk /\ exists r, In (x, r) (results o))) /\
    (save_io w = WFailWrite -> results o <> [] -> stored_ids (dedup_file (final o)) = []).
Proof.
  intros ab bk pa N feeds w st lg s Hload o; subst o.
  assert (Hsnap : forall x, In x (loaded_snapshot w st) <-> In x (stored_ids (dedup_file st))).
  { unfold loaded_snapshot, _load_processed; rewrite Hload; simpl.
    exact (Facts.load_try_ok_stored _ _ _ _ Hload). }
  unfold run.
  destruct (_check_model_accessible (probe w) (pull_r w) (reprobe w)) as [cs [u|x]]; simpl.
  2:{ split; [intros x0 Hx; split; [intros _; right; reflexivity|intros _; exact Hx]|].
      split; [intros x0 Hx; split; [tauto|intros (_ & r & [])] | intros _ H; congruence]. }
  unfold process_feeds.
  destruct (feeds_loop ab bk pa N (loaded_snapshot w st) feeds) as [[|s0 sums] tr];
    cbn -[stored_ids set_update].
  { split; [intros x0 Hx; split; [intros _; right; reflexivity|intros _; exact Hx]|].
    split; [intros x0 Hx; split; [tauto|intros (_ & r & [])] | intros _ H; congruence]. }
  destruct (save_io w) eqn:Esave; cbn -[stored_ids set_update].
  - rewrite Facts.stored_ids_written.
    split; [|split; [|discriminate]].
    + intros x Hx; split; [intros _; left; discriminate|intros _].
      apply Facts.set_update_In; left; apply Hsnap; exact Hx.
    + intros x Hx; rewrite Facts.set_update_In; split.
      * intros [H|H]; [apply Hsnap in H; contradiction|].
        split; [reflexivity|].
        change (In x (map fst (s0 :: sums))) in H.
        apply in_map_iff in H as ([a r] & Ha & Hin); simpl in Ha; subst a; eauto.
      * intros (_ & r & Hr); right.
        change (In x (map fst (s0 :: sums))).
        apply in_map_iff; exists (x, r); split; [reflexivity|exact Hr].
  - destruct (report_io w); cbn -[stored_ids set_update];
      (split; [intros x0 Hx; split; [intros _; left; discriminate|intros _; exact Hx]|]);
      (split; [intros x0 Hx; split; [tauto|intros (H & _); discriminate]|discriminate]).
  - destruct (report_io w); cbn -[set_update];
      (split; [intros x0 Hx; split; [intros []|intros [H|H]; [congruence|discriminate]]|]);
      (split; [intros x0 Hx; split; [intros []|intros (H & _); discriminate]|reflexivity]).
Qed.

Lemma C4_witness :
  let ent := mk_entry (Some "a") (Some "a") (Some "t") (Some "body") None None in
  let w := mk_world IoOk (Ok tt) (Ok tt) (Ok tt) WOk WOk in
  let st := mk_fs (Some (JsonArray [JStr "b"])) [] in
  In "b" (stored_ids (dedup_file (final (run (fun _ => None) (fun _ => Reply "s")
                         (fun _ => Ok (mk_feed false [ent])) 2%Z ["f"] w st)))).
Proof.
  intros ent w st.
  apply (proj2 (proj1 (C4_dedup_grows_when_loaded (fun _ => None) (fun _ => Reply "s")
           (fun _ => Ok (mk_feed false [ent])) 2%Z ["f"] w st
           [LogInfo "Loaded processed articles."] ["b"] eq_refl) "b" (or_introl eq_refl))).
  left; discriminate.
Defined.

Module AbstractFacts.
Import FetchAbstract.

Lemma first_match_at re pg :
  forall pre src post r,
    (forall s', In s' pre -> finder re s' pg = None) ->
    finder re src pg = Some r ->
    first_match re (pre ++ src :: post) pg = extract src r.
Proof.
  induction pre as [|s0 pre IH]; intros src post r Hpre Hsrc; simpl.
  - rewrite Hsrc; reflexivity.
  - rewrite (Hpre s0 (or_introl eq_refl)).
    apply IH; [intros s' Hs'; apply Hpre; right; exact Hs' | exact Hsrc].
Qed.

Lemma first_match_none re pg :
  forall srcs, (forall s, In s srcs -> finder re s pg = None) -> first_match re srcs pg = None.
Proof.
  induction srcs as [|s0 srcs IH]; intros H; simpl; [reflexivity|].
  rewrite (H s0 (or_introl eq_refl)); apply IH; intros s Hs; apply H; right; exact Hs.
Qed.
End AbstractFacts.

(** C6, as stated, fails: the page has an empty [<abstract>] element and a
    non-empty meta description; the first strategy finds the element, and
    its empty text is returned instead of the meta description. *)
Lemma C6_counterexample :
  let meta := FetchAbstract.mk_elem "meta" [("name", "description"); ("content", "Real summary")] [] in
  let pg := FetchAbstract.mk_page [FetchAbstract.mk_elem "abstract" [] [" "]; meta] "" in
  FetchAbstract.fetch_article_abstract (fun _ => None) (fun _ => Some pg) "https://x/1" = Some "" /\
  FetchAbstract.finder (fun _ => None) FetchAbstract.Src_meta_description pg = Some (FetchAbstract.FTag meta) /\
  FetchAbstract.extract FetchAbstract.Src_meta_description (FetchAbstract.FTag meta) = Some "Real summary".
Proof. repeat split; reflexivity. Qed.

(** C6 (amended).  The strategies are tried in this order: [abstract]
    element, [div] of class "abstract", [div] of id "abstract", [section]
    labelled "abstract", first [p] mentioning "abstract", the Abstract ...
    Introduction/1. regex, meta description, Open-Graph description.  The
    first strategy that finds an element or a regex match decides the
    result: its trimmed text is returned, even when it is empty; later
    strategies are consulted only when the earlier ones find nothing.  No
    match, or a failed fetch, gives [None]. *)
Theorem C6_strategy_order :
  FetchAbstract.abstract_sources =
    [FetchAbstract.Src_abstract; FetchAbstract.Src_div_abstract_class;
     FetchAbstract.Src_div_abstract_id; FetchAbstract.Src_section; FetchAbstract.Src_p;
     FetchAbstract.Src_regex; FetchAbstract.Src_meta_description;
     FetchAbstract.Src_og_description] /\
  (forall re fetch url pg pre src post r,
      fetch url = Some pg ->
      FetchAbstract.abstract_sources = pre ++ src :: post ->
      (forall s', In s' pre -> FetchAbstract.finder re s' pg = None) ->
      FetchAbstract.finder re src pg = Some r ->
      FetchAbstract.fetch_article_abstract re fetch url = FetchAbstract.extract src r) /\
  (forall re fetch url pg,
      fetch url = Some pg ->
      (forall s, In s FetchAbstract.abstract_sources -> FetchAbstract.finder re s pg = None) ->
      FetchAbstract.fetch_article_abstract re fetch url = None) /\
  (forall re fetch url, fetch url = None -> FetchAbstract.fetch_article_abstract re fetch url = None).
Proof.
  split; [reflexivity|]; split; [|split].
  - intros re fetch url pg pre src post r Hf Hsrcs Hpre Hsrc.
    unfold FetchAbstract.fetch_article_abstract; rewrite Hf, Hsrcs.
    apply AbstractFacts.first_match_at; assumption.
  - intros re fetch url pg Hf Hnone.
    unfold FetchAbstract.fetch_article_abstract; rewrite Hf.
    apply AbstractFacts.first_match_none; exact Hnone.
  - intros re fetch url Hf; unfold FetchAbstract.fetch_article_abstract; rewrite Hf; reflexivity.
Qed.

Lemma C6_witness :
  let div := FetchAbstract.mk_elem "div" [("class", "x abstract")] [" Short "; " text"] in
  let pg := FetchAbstract.mk_page [FetchAbstract.mk_elem "p" [] ["The abstract"]; div] "" in
  FetchAbstract.fetch_article_abstract (fun _ => None) (fun _ => Some pg) "u" = Some "Shorttext" /\
  FetchAbstract.fetch_article_abstract (fun _ => None) (fun _ => None) "u" = None.
Proof.
  intros div pg; split.
  - apply (proj1 (proj2 C6_strategy_order) (fun _ => None) (fun _ => Some pg) "u" pg
             [FetchAbstract.Src_abstract] FetchAbstract.Src_div_abstract_class
             [FetchAbstract.Src_div_abstract_id; FetchAbstract.Src_section; FetchAbstract.Src_p;
              FetchAbstract.Src_regex; FetchAbstract.Src_meta_description;
              FetchAbstract.Src_og_description]
             (FetchAbstract.FTag div)); try reflexivity.
    intros s' [<-|[]]; reflexivity.
  - apply (proj2 (proj2 (proj2 C6_strategy_order))); reflexivity.
Defined.

Module CapFacts.

Section Loop.
Variables (ab : string -> option string) (bk : string -> reply)
          (N : Z) (snap : list string).

Lemma entries_loop_cap :
  forall es count,
    length (produced (entries_loop ab bk N snap count es)) <= Z.to_nat (N - count).
Proof.
  induction es as [|e es IH]; intros count; simpl; [lia|].
  destruct (N <=? count)%Z eqn:Ec; simpl; [lia|].
  apply Z.leb_gt in Ec.
  destruct (article_step ab bk snap e); simpl; try lia;
    [specialize (IH count); lia .. | specialize (IH (count + 1)%Z); lia].
Qed.

Lemma entries_loop_prefix :
  forall es count, exists rest,
    firstn (Z.to_nat (N - count)) (produced_all ab bk snap es) =
    produced (entries_loop ab bk N snap count es) ++ rest.
Proof.
  induction es as [|e es IH]; intros count; simpl.
  - exists []; destruct (Z.to_nat (N - count)); reflexivity.
  - destruct (N <=? count)%Z eqn:Ec; simpl.
    + apply Z.leb_le in Ec.
      replace (Z.to_nat (N - count)) with 0 by lia; exists []; reflexivity.
    + apply Z.leb_gt in Ec.
      destruct (article_step ab bk snap e) as [|a|a|a r|a x]; simpl; try apply IH.
      * replace (Z.to_nat (N - count)) with (S (Z.to_nat (N - (count + 1)))) by lia.
        destruct (IH (count + 1)%Z) as [rest Hr]; exists rest; simpl; rewrite Hr; reflexivity.
      * eexists; reflexivity.
Qed.

Lemma entries_loop_exact :
  forall es count,
    (forall e, In e es -> step_raises ab bk snap e = false) ->
    produced (entries_loop ab bk N snap count es) =
    firstn (Z.to_nat (N - count)) (produced_all ab bk snap es).
Proof.
  induction es as [|e es IH]; intros count Hnr; simpl.
  - destruct (Z.to_nat (N - count)); reflexivity.
  - destruct (N <=? count)%Z eqn:Ec; simpl.
    + apply Z.leb_le in Ec.
      replace (Z.to_nat (N - count)) with 0 by lia; reflexivity.
    + apply Z.leb_gt in Ec.
      assert (IH' : forall c, produced (entries_loop ab bk N snap c es) =
                              firstn (Z.to_nat (N - c)) (produced_all ab bk snap es))
        by (intros c; apply IH; intros e' He'; apply Hnr; right; exact He').
      pose proof (Hnr e (or_introl eq_refl)) as He; unfold step_raises in He.
      destruct (article_step ab bk snap e) as [|a|a|a r|a x]; simpl; try apply IH'.
      * replace (Z.to_nat (N - count)) with (S (Z.to_nat (N - (count + 1)))) by lia.
        simpl; rewrite IH'; reflexivity.
      * discriminate.
Qed.
End Loop.

Lemma valid_loop_from processed :
  forall es arts, MainPy.valid_loop processed es = Ok arts ->
    length arts <= length es /\
    forall a, In a arts -> exists e, In e es /\
      get_or (e_link e) "No_URL_available" = MainPy.a_link a.
Proof.
  induction es as [|e es IH]; simpl; intros arts H.
  - injection H as <-; split; [simpl; lia | intros _ []].
  - destruct (truthy (get_or (e_link e) "No_URL_available") &&
              negb (mem (get_or (e_link e) "No_URL_available") processed)).
    2:{ destruct (IH arts H) as [H1 H2]; split; [lia|].
        intros a Ha; destruct (H2 a Ha) as (e' & ? & ?); eauto. }
    destruct (MainPy.entry_content e) as [c|x]; [|discriminate].
    destruct (truthy (Py.strip c)).
    2:{ destruct (IH arts H) as [H1 H2]; split; [lia|].
        intros a Ha; destruct (H2 a Ha) as (e' & ? & ?); eauto. }
    destruct (MainPy.valid_loop processed es) as [r|x] eqn:Er; [|discriminate].
    injection H as <-; destruct (IH r eq_refl) as [H1 H2]; split; [simpl; lia|].
    intros a [<-|Ha]; [exists e; simpl; auto|].
    destruct (H2 a Ha) as (e' & ? & ?); eauto.
Qed.
End CapFacts.

(** C3, as stated, fails: with [articles_per_feed = 1], the first eligible
    entry "a" fails to summarize, so it does not use the slot, and the
    entry processed is "b", not the first eligible entry. *)
Lemma C3_counterexample :
  let ea := mk_entry (Some "a") (Some "a") (Some "t") (Some "bad") None None in
  let eb := mk_entry (Some "b") (Some "b") (Some "t") (Some "good") None None in
  let bk := fun c => if String.eqb c "bad" then RespErr 500 else Reply "ok" in
  let pa := fun _ : string => Ok (mk_feed false [ea; eb]) in
  map fst (fst (process_feed (fun _ => None) bk pa 1%Z [] "f")) = ["b"] /\
  map article_id (firstn 1 (filter (eligible []) [ea; eb])) = [Some "a"].
Proof. split; reflexivity. Qed.

(** C3 (amended).  AIFeeder.py: for a parsed, well-formed feed, at most
    [articles_per_feed] summaries are produced; they are the first
    [articles_per_feed] summaries that the eligible entries (in feed order,
    filtered against the snapshot) would give, the cap counting only
    successful summaries, so an eligible entry that is skipped does not use a
    slot; an exception stops the feed early, leaving a prefix of them.
    main.py: the cap is applied to the raw entry list before filtering: at
    most [article_limit] articles, all taken from the first [article_limit]
    entries of the feed. *)
Theorem C3_cap_counts_successes :
  (forall ab bk pa N snap u f,
      pa u = Ok f -> bozo f = false ->
      let p := fst (process_feed ab bk pa N snap u) in
      length p <= Z.to_nat N /\
      (exists rest, firstn (Z.to_nat N) (produced_all ab bk snap (entries f)) = p ++ rest) /\
      ((forall e, In e (entries f) -> step_raises ab bk snap e = false) ->
       p = firstn (Z.to_nat N) (produced_all ab bk snap (entries f)))) /\
  (forall pm url limit processed arts,
      (0 <= limit)%Z ->
      MainPy.fetch_valid_articles pm url limit processed = Ok (Some arts) ->
      length arts <= Z.to_nat limit /\
      forall a, In a arts -> exists e,
        In e (firstn (Z.to_nat limit) (entries (pm url))) /\
        get_or (e_link e) "No_URL_available" = MainPy.a_link a).
Proof.
  split.
  - intros ab bk pa N snap u f Hp Hb p; subst p; unfold process_feed; rewrite Hp, Hb; simpl.
    pose proof (CapFacts.entries_loop_cap ab bk N snap (entries f) 0) as H1.
    pose proof (CapFacts.entries_loop_prefix ab bk N snap (entries f) 0) as H2.
    pose proof (CapFacts.entries_loop_exact ab bk N snap (entries f) 0) as H3.
    rewrite Z.sub_0_r in H1, H2, H3.
    split; [exact H1|split; [exact H2|exact H3]].
  - intros pm url limit processed arts Hl H.
    unfold MainPy.fetch_valid_articles, MainPy.slice_to in H.
    apply Z.leb_le in Hl; rewrite Hl in H.
    destruct (MainPy.valid_loop processed (firstn (Z.to_nat limit) (entries (pm url))))
      as [l|x] eqn:Ev; [|discriminate].
    destruct l as [|a0 l]; [discriminate|]; injection H as <-.
    destruct (CapFacts.valid_loop_from processed _ _ Ev) as [H1 H2].
    split; [|exact H2].
    rewrite length_firstn in H1; lia.
Qed.

Lemma C3_witness :
  let ea := mk_entry (Some "a") (Some "a") (Some "t") (Some "x") None None in
  let pa := fun _ : string => Ok (mk_feed false [ea; ea; ea]) in
  length (fst (process_feed (fun _ => None) (fun _ => Reply "ok") pa 2%Z [] "f")) <= 2 /\
  length [MainPy.mk_article "t" "a" "x"] <= 1.
Proof.
  intros ea pa; split.
  - apply (proj1 (proj1 C3_cap_counts_successes (fun _ => None) (fun _ => Reply "ok") pa 2%Z [] "f"
                    (mk_feed false [ea; ea; ea]) eq_refl eq_refl)).
  - apply (proj1 (proj2 C3_cap_counts_successes (fun _ => mk_feed false [ea; ea]) "f" 1%Z []
                    [MainPy.mk_article "t" "a" "x"] ltac:(lia) eq_refl)).
Defined.

Module SeqFacts.

Lemma feeds_loop_flat ab bk pa N snap :
  forall feeds, feeds_loop ab bk pa N snap feeds =
    (flat_map (fun u => fst (process_feed ab bk pa N snap u)) feeds,
     flat_map (fun u => snd (process_feed ab bk pa N snap u)) feeds).
Proof.
  induction feeds as [|u us IH]; simpl; [reflexivity|].
  rewrite IH; destruct (process_feed ab bk pa N snap u); reflexivity.
Qed.

Lemma process_feed_shape ab bk pa N snap u :
  exists mid, snd (process_feed ab bk pa N snap u) = FeedBegin u :: mid ++ [FeedEnd u] /\
              forall ev, In ev mid -> is_bracket ev = false.
Proof.
  unfold process_feed; destruct (pa u) as [f|x]; [destruct (bozo f)|]; simpl.
  - exists [FeedBozo u]; split; [reflexivity|]; intros ev [<-|[]]; reflexivity.
  - eexists; split; [reflexivity|].
    intros ev Hin; apply in_map_iff in Hin as (a & <- & _); reflexivity.
  - exists [FeedFailed u]; split; [reflexivity|]; intros ev [<-|[]]; reflexivity.
Qed.

Lemma max_open_ge : forall r k, k <= max_open k r.
Proof.
  induction r as [|ev r IH]; intros k; [cbn [max_open]; lia|].
  destruct ev; cbn [max_open]; lia.
Qed.

Lemma max_open_mid :
  forall mid k r, (forall ev, In ev mid -> is_bracket ev = false) ->
    max_open k (mid ++ r) = Nat.max k (max_open k r).
Proof.
  induction mid as [|ev mid IH]; intros k r H.
  - simpl app; pose proof (max_open_ge r k); lia.
  - pose proof (H ev (or_introl eq_refl)) as Hev.
    rewrite <- app_comm_cons.
    destruct ev; simpl in Hev; try discriminate; cbn [max_open];
      rewrite IH by (intros ev' Hev'; apply H; right; exact Hev'); lia.
Qed.

Lemma sequential_traces ab bk pa N snap :
  forall feeds,
    max_open 0 (flat_map (fun u => snd (process_feed ab bk pa N snap u)) feeds) <= 1.
Proof.
  induction feeds as [|u us IH]; cbn [flat_map]; [cbn [max_open]; lia|].
  destruct (process_feed_shape ab bk pa N snap u) as (mid & Hs & Hm).
  rewrite Hs, <- app_comm_cons, <- app_assoc; cbn [max_open app].
  rewrite max_open_mid by exact Hm; cbn [max_open pred].
  lia.
Qed.
End SeqFacts.

(** C9, as stated, fails: over five feeds, never more than one feed is in
    progress at a time; the feeds are not processed concurrently. *)
Lemma C9_counterexample :
  let ent := fun i => mk_entry (Some i) (Some i) (Some "t") (Some "body") None None in
  let pa := fun u : string => Ok (mk_feed false [ent (String.append u "/1"); ent (String.append u "/2")]) in
  let w := mk_world IoOk (Ok tt) (Ok tt) (Ok tt) WOk WOk in
  max_in_flight (trace (run (fun _ => None) (fun _ => Reply "s") pa 5%Z
                            ["f1"; "f2"; "f3"; "f4"; "f5"] w (mk_fs None []))) = 1.
Proof. vm_compute; reflexivity. Qed.

(** C9 (amended).  The feeds are processed one after the other, in the order
    of the feed list, each to completion before the next starts (at most one
    feed in progress at any point of the trace), the articles of a feed in
    feed order; the run's summaries and trace are the concatenation, in feed
    order, of the per-feed ones. *)
Theorem C9_sequential_feeds :
  forall ab bk pa N feeds w st,
    let o := run ab bk pa N feeds w st in
    max_in_flight (trace o) <= 1 /\
    (status o = Ok tt ->
     trace o = flat_map (fun u => snd (process_feed ab bk pa N (loaded_snapshot w st) u)) feeds /\
     results o = flat_map (fun u => fst (process_feed ab bk pa N (loaded_snapshot w st) u)) feeds).
Proof.
  intros ab bk pa N feeds w st o; subst o; unfold run.
  destruct (_check_model_accessible (probe w) (pull_r w) (reprobe w)) as [cs [u|x]]; simpl.
  2:{ split; [unfold max_in_flight; simpl; lia | discriminate]. }
  unfold process_feeds; rewrite SeqFacts.feeds_loop_flat.
  pose proof (SeqFacts.sequential_traces ab bk pa N (loaded_snapshot w st) feeds) as Hseq.
  destruct (flat_map (fun u0 => fst (process_feed ab bk pa N (loaded_snapshot w st) u0)) feeds);
    simpl; (split; [exact Hseq | intros _; split; reflexivity]).
Qed.

Lemma C9_witness :
  let ent := mk_entry (Some "a") (Some "a") (Some "t") (Some "body") None None in
  let pa := fun _ : string => Ok (mk_feed false [ent]) in
  let w := mk_world IoOk (Ok tt) (Ok tt) (Ok tt) WOk WOk in
  trace (run (fun _ => None) (fun _ => Reply "s") pa 1%Z ["f1"; "f2"] w (mk_fs None [])) =
    flat_map (fun u => snd (process_feed (fun _ => None) (fun _ => Reply "s") pa 1%Z [] u)) ["f1"; "f2"].
Proof.
  intros ent pa w.
  apply (proj1 (proj2 (C9_sequential_feeds (fun _ => None) (fun _ => Reply "s") pa 1%Z ["f1"; "f2"]
                         w (mk_fs None [])) eq_refl)).
Defined.

Module RerunFacts.

(** An entry summarized against a larger snapshot is summarized the same
    way against a smaller one. *)
Lemma article_step_produced_mono ab bk snap1 snap2 e a r :
  (forall x, mem x snap1 = true -> mem x snap2 = true) ->
  article_step ab bk snap2 e = Produced a r ->
  article_step ab bk snap1 e = Produced a r.
Proof.
  intros Hsub H.
  pose proof (Facts.article_step_attempted ab bk snap2 e a) as Ha.
  rewrite H in Ha; destruct (Ha eq_refl) as (Hid & Ht & Hm2).
  assert (Hm1 : mem a snap1 = false).
  { destruct (mem a snap1) eqn:E; [rewrite (Hsub a E) in Hm2; discriminate|reflexivity]. }
  revert H; unfold article_step; rewrite Hid, Ht, Hm1, Hm2; simpl; exact (fun H => H).
Qed.

Lemma loop_second_pass ab bk N snap1 snap2 :
  (forall x, mem x snap1 = true -> mem x snap2 = true) ->
  forall es c1 c2,
    exit (entries_loop ab bk N snap1 c1 es) = Exhausted ->
    (forall a r, In (a, r) (produced (entries_loop ab bk N snap1 c1 es)) -> mem a snap2 = true) ->
    produced (entries_loop ab bk N snap2 c2 es) = [].
Proof.
  intros Hsub; induction es as [|e es IH]; intros c1 c2 Hex Hin; simpl; [reflexivity|].
  simpl in Hex, Hin.
  destruct (N <=? c1)%Z; [discriminate|].
  destruct (N <=? c2)%Z; [reflexivity|].
  destruct (article_step ab bk snap2 e) as [|a2|a2|a2 r2|a2 x2] eqn:E2.
  4:{ pose proof (Facts.article_step_attempted ab bk snap2 e a2) as Ha.
      rewrite E2 in Ha; destruct (Ha eq_refl) as (_ & _ & Hm2).
      pose proof (article_step_produced_mono ab bk snap1 snap2 e a2 r2 Hsub E2) as E1.
      rewrite E1 in Hin; simpl in Hin.
      rewrite (Hin a2 r2 (or_introl eq_refl)) in Hm2; discriminate. }
  all: destruct (article_step ab bk snap1 e) as [|a1|a1|a1 r1|a1 x1] eqn:E1;
    simpl in Hex, Hin |- *;
    first [ reflexivity | discriminate | apply (IH c1 c2 Hex Hin)
          | apply (IH (c1 + 1)%Z c2 Hex (fun a r H => Hin a r (or_intror H))) ].
Qed.

Lemma json_strings_map l : json_strings (map JStr l) = Ok l.
Proof. induction l as [|x l IH]; simpl; [reflexivity|]; rewrite IH; reflexivity. Qed.

(** After a successful commit of [ids], the next run loads [set(ids)]. *)
Lemma snapshot_after_commit w ids rs :
  load_io w = IoOk ->
  loaded_snapshot w (mk_fs (Some (JsonArray (map JStr ids))) rs) = set_update [] ids.
Proof.
  intros H; unfold loaded_snapshot, _load_processed, load_try; simpl.
  rewrite H, json_strings_map; reflexivity.
Qed.

Lemma flat_map_nil {A B} (f : A -> list B) (l : list A) :
  (forall x, In x l -> f x = []) -> flat_map f l = [].
Proof.
  induction l as [|x l IH]; intros H; simpl; [reflexivity|].
  rewrite (H x (or_introl eq_refl)), IH by (intros y Hy; apply H; right; exact Hy).
  reflexivity.
Qed.

(** A run whose model check passes: its results are those of the feed loop,
    and the files change only when there is something to report. *)
Lemma run_ok ab bk pa N feeds w st cs u :
  _check_model_accessible (probe w) (pull_r w) (reprobe w) = (cs, Ok u) ->
  let sums := fst (feeds_loop ab bk pa N (loaded_snapshot w st) feeds) in
  results (run ab bk pa N feeds w st) = sums /\
  final (run ab bk pa N feeds w st) =
    match sums with
    | [] => st
    | _ :: _ =>
        _save_processed (set_update (loaded_snapshot w st) (map fst sums)) (save_io w)
                        (_generate_report (map snd sums) (report_io w) st)
    end.
Proof.
  intros H sums; subst sums; unfold run, process_feeds; rewrite H.
  destruct (feeds_loop ab bk pa N (loaded_snapshot w st) feeds) as [[|s0 sums] tr];
    simpl; split; reflexivity.
Qed.
End RerunFacts.

(** C8, as stated, fails.  AIFeeder.py: with a feed of three new entries and
    [articles_per_feed = 2], the second run over the same feed summarizes the
    third entry and rewrites the dedup file; and when the backend fails on
    an entry in the first run (a transient error) and answers in the second,
    the second run summarizes it although the first ran to the end of the
    feed.  main.py: with [article_limit = 1] and two feeds, the second run
    only remembers the last stored link, so it summarizes the first feed's
    article again and appends it to the file. *)
Lemma C8_counterexample :
  let ent := fun i => mk_entry (Some i) (Some i) (Some "t") (Some "body") None None in
  let pa := fun _ : string => Ok (mk_feed false [ent "a"; ent "b"; ent "c"]) in
  let w := mk_world IoOk (Ok tt) (Ok tt) (Ok tt) WOk WOk in
  let r := run (fun _ => None) (fun _ => Reply "s") pa 2%Z ["f"] w in
  let st1 := final (r (mk_fs None [])) in
  map fst (results (r st1)) = ["c"] /\
  dedup_file (final (r st1)) <> dedup_file st1 /\
  (let pa1 := fun _ : string => Ok (mk_feed false [ent "a"]) in
   let st1' := final (run (fun _ => None) (fun _ => RespErr 500) pa1 2%Z ["f"] w (mk_fs None [])) in
   feed_ran_to_end (fun _ => None) (fun _ => RespErr 500) pa1 2%Z [] "f" = true /\
   map fst (results (run (fun _ => None) (fun _ => Reply "s") pa1 2%Z ["f"] w st1')) = ["a"]) /\
  (let pm := fun u : string => mk_feed false [ent u] in
   let m := MainPy.main (fun _ => Reply "s") pm (MainPy.mk_mio (fun _ => AOk) WOk WOk WOk)
                        1%Z ["a"; "b"] (Ok tt) (Ok tt) "2024-01-01" in
   let f1 := main_files (m (MainPy.mk_mfs None None [])) in
   map fst (main_summaries (m f1)) = ["a"] /\
   MainPy.m_dedup (main_files (m f1)) = Some (link_text ["a"; "b"; "a"])).
Proof.
  vm_compute; split; [reflexivity | split; [discriminate | split; split; reflexivity]].
Qed.

(** C8 (amended).  AIFeeder.py: when the dedup file can be read and written
    ([load_io] and [save_io] succeed) and, in the first run, every feed was
    skipped (parse error or bozo) or had its entry loop reach the end of its
    entries (neither the [articles_per_feed] cap nor an exception stopped
    it), a second run over the same feed content, in which the backend and
    the abstract pages answer as in the first run, produces no summary and
    leaves the files as the first run left them. *)
Theorem C8_second_run_empty :
  forall ab bk pa N feeds w st,
    load_io w = IoOk -> save_io w = WOk ->
    (forall u, In u feeds -> feed_ran_to_end ab bk pa N (loaded_snapshot w st) u = true) ->
    let st1 := final (run ab bk pa N feeds w st) in
    results (run ab bk pa N feeds w st1) = [] /\
    final (run ab bk pa N feeds w st1) = st1.
Proof.
  intros ab bk pa N feeds w st Hld Hsv Hend st1.
  destruct (_check_model_accessible (probe w) (pull_r w) (reprobe w)) as [cs [u|x]] eqn:Echk.
  2:{ subst st1; unfold run; rewrite !Echk; split; reflexivity. }
  destruct (RerunFacts.run_ok ab bk pa N feeds w st cs u Echk) as [_ F1].
  destruct (RerunFacts.run_ok ab bk pa N feeds w st1 cs u Echk) as [R2 F2].
  set (snap1 := loaded_snapshot w st) in *.
  set (snap2 := loaded_snapshot w st1) in *.
  set (sums1 := fst (feeds_loop ab bk pa N snap1 feeds)) in *.
  assert (Hsnap : (forall x, mem x snap1 = true -> mem x snap2 = true) /\
                  (forall a r, In (a, r) sums1 -> mem a snap2 = true)).
  { subst snap2; fold st1 in F1; rewrite F1.
    destruct sums1 as [|s0 sums'] eqn:Es.
    - split; [exact (fun x H => H) | intros a r []].
    - rewrite Hsv; unfold _save_processed.
      rewrite (RerunFacts.snapshot_after_commit w _ _ Hld).
      split.
      + intros x Hx; apply Facts.mem_In; apply Facts.mem_In in Hx.
        apply Facts.set_update_In; right; apply Facts.set_update_In; left; exact Hx.
      + intros a r Hin; apply Facts.mem_In.
        apply Facts.set_update_In; right; apply Facts.set_update_In; right.
        change a with (fst (a, r)); apply in_map; exact Hin. }
  destruct Hsnap as [Hsub Hprod].
  assert (Hnil : fst (feeds_loop ab bk pa N snap2 feeds) = []).
  { rewrite SeqFacts.feeds_loop_flat; simpl fst.
    apply RerunFacts.flat_map_nil; intros v Hv.
    pose proof (Hend v Hv) as He; unfold feed_ran_to_end in He.
    unfold process_feed; destruct (pa v) as [f|y] eqn:Epa; [|reflexivity].
    destruct (bozo f) eqn:Eb; [reflexivity|]; simpl in He |- *.
    apply (RerunFacts.loop_second_pass ab bk N snap1 snap2 Hsub (entries f) 0%Z 0%Z).
    - destruct (exit (entries_loop ab bk N snap1 0 (entries f))); try discriminate; reflexivity.
    - intros a r Hin; apply (Hprod a r).
      subst sums1; rewrite SeqFacts.feeds_loop_flat; simpl fst.
      apply in_flat_map; exists v; split; [exact Hv|].
      unfold process_feed; rewrite Epa, Eb; exact Hin. }
  rewrite R2, F2, Hnil; split; reflexivity.
Qed.

Lemma C8_witness :
  let ent := mk_entry (Some "a") (Some "a") (Some "t") (Some "body") None None in
  let pa := fun _ : string => Ok (mk_feed false [ent]) in
  let w := mk_world IoOk (Ok tt) (Ok tt) (Ok tt) WOk WOk in
  let r := run (fun _ => None) (fun _ => Reply "s") pa 2%Z ["f"] w in
  results (r (final (r (mk_fs None [])))) = [].
Proof.
  intros ent pa w r.
  apply (proj1 (C8_second_run_empty (fun _ => None) (fun _ => Reply "s") pa 2%Z ["f"] w
                  (mk_fs None []) eq_refl eq_refl
                  ltac:(intros u [<-|[]]; vm_compute; reflexivity))).
Defined.

(** ** Further properties of the code *)

Module StrFacts.

Lemma append_nil_r s : String.append s "" = s.
Proof. induction s as [|c r IH]; simpl; [reflexivity|]; rewrite IH; reflexivity. Qed.

Lemma append_assoc a b c :
  String.append (String.append a b) c = String.append a (String.append b c).
Proof. induction a as [|x r IH]; simpl; [reflexivity|]; rewrite IH; reflexivity. Qed.

Lemma lstrip_idem s : lstrip (lstrip s) = lstrip s.
Proof.
  induction s as [|c r IH]; simpl; [reflexivity|].
  destruct (is_space c) eqn:E; [exact IH|simpl; rewrite E; reflexivity].
Qed.

Lemma rstrip_idem s : rstrip (rstrip s) = rstrip s.
Proof.
  induction s as [|c r IH]; simpl; [reflexivity|].
  destruct (is_space c && String.eqb (rstrip r) "") eqn:E; [reflexivity|].
  simpl; rewrite IH, E; reflexivity.
Qed.

Lemma lstrip_rstrip_lstrip s : lstrip (rstrip (lstrip s)) = rstrip (lstrip s).
Proof.
  induction s as [|c r IH]; simpl; [reflexivity|].
  destruct (is_space c) eqn:E; [exact IH|].
  simpl; rewrite E; simpl; rewrite E; reflexivity.
Qed.

Lemma strip_idem s : strip (strip s) = strip s.
Proof.
  unfold strip; rewrite lstrip_rstrip_lstrip, rstrip_idem; reflexivity.
Qed.

Lemma graphic_not_space c : graphic c = true -> is_space c = false.
Proof.
  unfold graphic, is_space; intros H; apply andb_true_iff in H as [H1 H2].
  apply Nat.leb_le in H1; apply Nat.leb_le in H2.
  destruct (nat_of_ascii c) as [|[|[|[|[|[|[|[|[|[|[|[|[|[|n]]]]]]]]]]]]]];
    try lia; repeat (destruct n as [|n]; try lia); reflexivity.
Qed.

Lemma graphic_not_newline c : graphic c = true -> Ascii.eqb c (ascii_of_nat 10) = false.
Proof.
  intros H; destruct (Ascii.eqb c (ascii_of_nat 10)) eqn:E; [|reflexivity].
  apply Ascii.eqb_eq in E; subst; discriminate.
Qed.

Lemma rstrip_graphic_nl u :
  all_graphic u = true -> rstrip (String.append u MainPy.newline) = u.
Proof.
  unfold MainPy.newline; induction u as [|c r IH]; simpl; intros H; [reflexivity|].
  apply andb_true_iff in H as [Hc Hr].
  rewrite (IH Hr), (graphic_not_space c Hc); reflexivity.
Qed.

Lemma strip_graphic_nl u :
  u <> "" -> all_graphic u = true -> strip (String.append u MainPy.newline) = u.
Proof.
  destruct u as [|c r]; [congruence|]; intros _ H.
  unfold strip; simpl in H |- *; apply andb_true_iff in H as [Hc Hr].
  rewrite (graphic_not_space c Hc).
  change (String c (String.append r MainPy.newline)) with (String.append (String c r) MainPy.newline).
  apply rstrip_graphic_nl; simpl; rewrite Hc, Hr; reflexivity.
Qed.

Lemma file_lines_app u rest :
  no_newline u = true ->
  file_lines (String.append u (String.append MainPy.newline rest)) =
    String.append u MainPy.newline :: file_lines rest.
Proof.
  unfold MainPy.newline; cbn [String.append]; induction u as [|c r IH];
    cbn [file_lines String.append no_newline]; intros H; [reflexivity|].
  apply andb_true_iff in H as [Hc Hr]; apply negb_true_iff in Hc.
  rewrite Hc, (IH Hr); reflexivity.
Qed.

Lemma all_graphic_no_newline u : all_graphic u = true -> no_newline u = true.
Proof.
  induction u as [|c r IH]; simpl; [reflexivity|].
  intros H; apply andb_true_iff in H as [Hc Hr].
  rewrite (graphic_not_newline c Hc), (IH Hr); reflexivity.
Qed.

Lemma file_lines_write urls :
  (forall u, In u urls -> all_graphic u = true) ->
  file_lines (MainPy.write_feed_urls urls) =
    map (fun u => String.append u MainPy.newline) urls.
Proof.
  unfold MainPy.write_feed_urls; induction urls as [|u us IH]; intros H; [reflexivity|].
  destruct us as [|u' us'].
  - change (file_lines (String.append u MainPy.newline) = [String.append u MainPy.newline]).
    pose proof (file_lines_app u "" (all_graphic_no_newline u (H u (or_introl eq_refl)))) as E.
    rewrite append_nil_r in E; rewrite E; reflexivity.
  - change (String.concat "" (map (fun u0 => String.append u0 MainPy.newline) (u :: u' :: us')))
      with (String.append (String.append u MainPy.newline)
              (String.concat "" (map (fun u0 => String.append u0 MainPy.newline) (u' :: us')))).
    rewrite append_assoc, file_lines_app
      by exact (all_graphic_no_newline u (H u (or_introl eq_refl))).
    rewrite IH by (intros v Hv; apply H; right; exact Hv); reflexivity.
Qed.

Lemma starts_hash_nl u : u <> "" -> starts_hash (String.append u MainPy.newline) = starts_hash u.
Proof. destruct u as [|c r]; [congruence|]; intros _; unfold starts_hash, MainPy.newline; cbn [String.prefix String.append].
  destruct (ascii_dec "#" c); [destruct r|]; reflexivity.
Qed.

Lemma starts_hash_strip l : starts_hash l = true -> starts_hash (strip l) = true.
Proof.
  destruct l as [|c r]; [discriminate|].
  unfold starts_hash; cbn [String.prefix]; destruct (ascii_dec "#" c) as [<-|]; [|discriminate].
  intros _; change (strip (String "#" r)) with (String "#" (rstrip r)).
  cbn [String.prefix]; destruct (ascii_dec "#" "#") as [_|n]; [destruct (rstrip r); reflexivity | congruence].
Qed.

Lemma no_newline_lstrip s : no_newline s = true -> no_newline (lstrip s) = true.
Proof.
  induction s as [|c r IH]; simpl; [reflexivity|].
  intros H; destruct (is_space c); [apply IH; apply andb_true_iff in H; tauto | exact H].
Qed.

Lemma no_newline_rstrip s : no_newline s = true -> no_newline (rstrip s) = true.
Proof.
  induction s as [|c r IH]; simpl; [reflexivity|].
  intros H; apply andb_true_iff in H as [Hc Hr].
  destruct (is_space c && String.eqb (rstrip r) ""); [reflexivity|].
  simpl; rewrite Hc, (IH Hr); reflexivity.
Qed.

Lemma no_newline_strip s : no_newline s = true -> no_newline (strip s) = true.
Proof. intros H; apply no_newline_rstrip, no_newline_lstrip, H. Qed.

Lemma split_lines_no_newline s : forall l, In l (MainPy.split_lines s) -> no_newline l = true.
Proof.
  induction s as [|c r IH]; simpl; intros l Hl.
  - destruct Hl as [<-|[]]; reflexivity.
  - destruct (Ascii.eqb c (ascii_of_nat 10)) eqn:Ec.
    + destruct Hl as [<-|Hl]; [reflexivity | exact (IH l Hl)].
    + destruct (MainPy.split_lines r) as [|h t] eqn:Er.
      * destruct Hl as [<-|[]]; simpl; rewrite Ec; reflexivity.
      * destruct Hl as [<-|Hl].
        -- simpl; rewrite Ec; exact (IH h (or_introl eq_refl)).
        -- exact (IH l (or_intror Hl)).
Qed.

Lemma split_lines_single x : no_newline x = true -> MainPy.split_lines x = [x].
Proof.
  induction x as [|c r IH]; simpl; [reflexivity|].
  intros H; apply andb_true_iff in H as [Hc Hr]; apply negb_true_iff in Hc.
  rewrite Hc, (IH Hr); reflexivity.
Qed.

Lemma split_lines_app x rest :
  no_newline x = true ->
  MainPy.split_lines (String.append x (String.append MainPy.newline rest)) =
    x :: MainPy.split_lines rest.
Proof.
  unfold MainPy.newline; cbn [String.append]; induction x as [|c r IH];
    cbn [MainPy.split_lines String.append no_newline]; intros H; [reflexivity|].
  apply andb_true_iff in H as [Hc Hr]; apply negb_true_iff in Hc.
  rewrite Hc, (IH Hr); reflexivity.
Qed.

Lemma split_join ls :
  ls <> [] -> (forall l, In l ls -> no_newline l = true) ->
  MainPy.split_lines (MainPy.join MainPy.newline ls) = ls.
Proof.
  induction ls as [|x r IH]; intros Hne H; [congruence|].
  destruct r as [|y r'].
  - simpl; apply split_lines_single, H; left; reflexivity.
  - change (MainPy.join MainPy.newline (x :: y :: r'))
      with (String.append x (String.append MainPy.newline (MainPy.join MainPy.newline (y :: r')))).
    rewrite split_lines_app by (apply H; left; reflexivity).
    rewrite IH; [reflexivity|discriminate|intros l Hl; apply H; right; exact Hl].
Qed.

Lemma tidy_lines s :
  forall l, In l (filter truthy (map strip (MainPy.split_lines s))) ->
    truthy l = true /\ strip l = l /\ no_newline l = true.
Proof.
  intros l Hl; apply filter_In in Hl as [Hl Ht].
  apply in_map_iff in Hl as (l0 & <- & Hl0).
  split; [exact Ht|split; [apply strip_idem|]].
  apply no_newline_strip, (split_lines_no_newline s), Hl0.
Qed.

Lemma filter_map_strip_fixed ls :
  (forall l, In l ls -> truthy l = true /\ strip l = l) ->
  filter truthy (map strip ls) = ls.
Proof.
  induction ls as [|x r IH]; intros H; simpl; [reflexivity|].
  destruct (H x (or_introl eq_refl)) as [Ht Hs]; rewrite Hs, Ht.
  rewrite IH by (intros l Hl; apply H; right; exact Hl); reflexivity.
Qed.

Lemma rstrip_nl x : rstrip (String.append x MainPy.newline) = rstrip x.
Proof.
  unfold MainPy.newline; induction x as [|c r IH]; cbn [rstrip String.append]; [reflexivity|].
  rewrite IH; reflexivity.
Qed.

Lemma strip_nl x : strip (String.append x MainPy.newline) = strip x.
Proof.
  unfold strip; induction x as [|c r IH]; cbn [lstrip String.append].
  - reflexivity.
  - destruct (is_space c) eqn:E; [exact IH|].
    change (String c (String.append r MainPy.newline)) with (String.append (String c r) MainPy.newline).
    apply rstrip_nl.
Qed.

Lemma file_lines_shape s :
  forall l, In l (file_lines s) ->
    exists x, no_newline x = true /\ (l = x \/ l = String.append x MainPy.newline).
Proof.
  induction s as [|c r IH]; cbn [file_lines]; intros l Hl; [destruct Hl|].
  destruct (Ascii.eqb c (ascii_of_nat 10)) eqn:Ec.
  - apply Ascii.eqb_eq in Ec; subst c.
    destruct Hl as [<-|Hl]; [exists ""; split; [reflexivity|right; reflexivity] | exact (IH l Hl)].
  - destruct (file_lines r) as [|h t] eqn:Er.
    + destruct Hl as [<-|[]]; exists (String c ""); split; [|left; reflexivity].
      simpl; rewrite Ec; reflexivity.
    + destruct Hl as [<-|Hl]; [|exact (IH l (or_intror Hl))].
      destruct (IH h (or_introl eq_refl)) as (x & Hx & [->| ->]); exists (String c x);
        (split; [simpl; rewrite Ec, Hx; reflexivity|]); [left|right]; reflexivity.
Qed.

Lemma file_line_strip_no_newline s l :
  In l (file_lines s) -> no_newline (strip l) = true.
Proof.
  intros Hl; destruct (file_lines_shape s l Hl) as (x & Hx & [->| ->]).
  - apply no_newline_strip, Hx.
  - rewrite strip_nl; apply no_newline_strip, Hx.
Qed.

(** What [read_feed_urls] returns is clean. *)
Lemma read_feed_urls_clean text u :
  In u (MainPy.read_feed_urls text) -> u <> "" /\ strip u = u /\ no_newline u = true.
Proof.
  unfold MainPy.read_feed_urls; intros Hu.
  apply in_map_iff in Hu as (l & <- & Hl); apply filter_In in Hl as [Hl Hp].
  apply andb_true_iff in Hp as [Ht _].
  split; [|split; [apply strip_idem | exact (file_line_strip_no_newline text l Hl)]].
  intros E; rewrite E in Ht; discriminate.
Qed.

Lemma load_feeds_filter ls :
  map strip (filter (fun line => truthy (strip line) && negb (starts_hash (strip line))) ls) =
  filter (fun u => negb (starts_hash u))
    (map strip (filter (fun line => truthy (strip line) && negb (starts_hash line)) ls)).
Proof.
  induction ls as [|l r IH]; [reflexivity|]; cbn [filter].
  destruct (truthy (strip l)); cbn [andb negb]; [|exact IH].
  destruct (starts_hash l) eqn:Eh.
  - rewrite (starts_hash_strip l Eh); exact IH.
  - cbn [negb map filter]; destruct (starts_hash (strip l)); cbn [negb map filter];
      [exact IH | rewrite IH; reflexivity].
Qed.

End StrFacts.

(** X1.  main.py's [write_feed_urls] followed by [read_feed_urls], and
    AIFeeder's [_load_feeds] on the written file, give back the URL list,
    for non-empty URLs of printable non-blank ASCII not starting with '#'. *)
Theorem X1_feed_file_round_trip :
  forall urls,
    (forall u, In u urls -> u <> "" /\ all_graphic u = true /\ starts_hash u = false) ->
    MainPy.read_feed_urls (MainPy.write_feed_urls urls) = urls /\
    _load_feeds (Some (MainPy.write_feed_urls urls)) = Ok urls.
Proof.
  intros urls H.
  unfold MainPy.read_feed_urls, _load_feeds.
  rewrite StrFacts.file_lines_write by (intros u Hu; apply H, Hu).
  assert (Hf : forall p : string -> bool,
             (forall u, In u urls -> p (String.append u MainPy.newline) = true) ->
             map strip (filter p (map (fun u => String.append u MainPy.newline) urls)) = urls).
  { intros p Hp; induction urls as [|u us IH]; [reflexivity|]; simpl.
    rewrite (Hp u (or_introl eq_refl)); simpl.
    destruct (H u (or_introl eq_refl)) as (Hne & Hg & _).
    rewrite (StrFacts.strip_graphic_nl u Hne Hg), IH; [reflexivity| |].
    - intros v Hv; apply H; right; exact Hv.
    - intros v Hv; apply Hp; right; exact Hv. }
  split; [|f_equal]; apply Hf; intros u Hu; destruct (H u Hu) as (Hne & Hg & Hh);
    rewrite (StrFacts.strip_graphic_nl u Hne Hg).
  - rewrite StrFacts.starts_hash_nl, Hh by exact Hne.
    destruct u; [congruence|reflexivity].
  - rewrite Hh; destruct u; [congruence|reflexivity].
Qed.

Lemma X1_witness :
  (forall u, In u ["https://a.org/rss"; "http://b.net/feed"] ->
     u <> "" /\ all_graphic u = true /\ starts_hash u = false) /\
  MainPy.read_feed_urls (MainPy.write_feed_urls ["https://a.org/rss"; "http://b.net/feed"]) =
    ["https://a.org/rss"; "http://b.net/feed"].
Proof.
  assert (H : forall u, In u ["https://a.org/rss"; "http://b.net/feed"] ->
                u <> "" /\ all_graphic u = true /\ starts_hash u = false).
  { intros u [<-|[<-|[]]]; (split; [discriminate | split; reflexivity]). }
  split; [exact H | exact (proj1 (X1_feed_file_round_trip _ H))].
Defined.


(** X2.  Every URL [read_feed_urls] (main.py) returns is non-empty, has no
    surrounding whitespace and holds no newline. *)
Theorem X2_read_feed_urls_clean :
  forall text u, In u (MainPy.read_feed_urls text) ->
    u <> "" /\ strip u = u /\ no_newline u = true.
Proof. exact StrFacts.read_feed_urls_clean. Qed.

Lemma X2_witness :
  In "https://a.org/rss" (MainPy.read_feed_urls "  https://a.org/rss  ") /\
  ("https://a.org/rss" <> "" /\ strip "https://a.org/rss" = "https://a.org/rss" /\
   no_newline "https://a.org/rss" = true).
Proof.
  assert (H : In "https://a.org/rss" (MainPy.read_feed_urls "  https://a.org/rss  "))
    by (vm_compute; left; reflexivity).
  split; [exact H | exact (X2_read_feed_urls_clean _ _ H)].
Defined.

(** X3.  AIFeeder's [_load_feeds] reads the list main.py's [read_feed_urls]
    reads from the same text, minus the entries that start with '#' (which
    main.py keeps when the comment line is indented, as it tests '#' before
    stripping): every feed it returns is non-empty, stripped, on one line
    and does not start with '#'.  An unreadable file raises. *)
Theorem X3_load_feeds :
  (forall text,
      _load_feeds (Some text) =
        Ok (filter (fun u => negb (starts_hash u)) (MainPy.read_feed_urls text)) /\
      forall u, In u (filter (fun u => negb (starts_hash u)) (MainPy.read_feed_urls text)) ->
        u <> "" /\ strip u = u /\ no_newline u = true /\ starts_hash u = false) /\
  _load_feeds None = Raise OSError.
Proof.
  split; [|reflexivity].
  intros text; split.
  - unfold _load_feeds, MainPy.read_feed_urls; rewrite StrFacts.load_feeds_filter; reflexivity.
  - intros u Hu; apply filter_In in Hu as [Hu Hh]; apply negb_true_iff in Hh.
    destruct (StrFacts.read_feed_urls_clean text u Hu) as (H1 & H2 & H3); auto.
Qed.

(** X4.  main.py's [summarize_article] output is already in its own
    format: formatting it again changes nothing, and when it is not empty
    each of its lines is non-empty and stripped. *)
Theorem X4_summary_format_idempotent :
  forall s t,
    MainPy.summarize_article (Reply s) = Some t ->
    MainPy.summarize_article (Reply t) = Some t /\
    (t <> "" -> forall l, In l (MainPy.split_lines t) -> l <> "" /\ strip l = l).
Proof.
  intros s t H; injection H as <-.
  pose proof (StrFacts.tidy_lines s) as Hl.
  destruct (filter truthy (map strip (MainPy.split_lines s))) as [|x r] eqn:Els.
  - split; [reflexivity | intros Hne; exfalso; apply Hne; reflexivity].
  - assert (Hsplit : MainPy.split_lines (MainPy.join MainPy.newline (x :: r)) = x :: r).
    { apply StrFacts.split_join; [discriminate|]. intros l Hin; apply (Hl l Hin). }
    split.
    + unfold MainPy.summarize_article; rewrite Hsplit, StrFacts.filter_map_strip_fixed;
        [reflexivity|].
      intros l Hin; destruct (Hl l Hin) as (H1 & H2 & _); auto.
    + intros _ l Hin; rewrite Hsplit in Hin; destruct (Hl l Hin) as (H1 & H2 & _).
      split; [intros E; rewrite E in H1; discriminate | exact H2].
Qed.

Lemma X4_witness :
  let s := MainPy.join MainPy.newline ["  - point one  "; ""; "  - point two"] in
  let t := MainPy.join MainPy.newline ["- point one"; "- point two"] in
  MainPy.summarize_article (Reply s) = Some t /\ MainPy.summarize_article (Reply t) = Some t.
Proof.
  intros s t; split; [reflexivity|].
  exact (proj1 (X4_summary_format_idempotent s t eq_refl)).
Defined.

Module MainFacts.

Lemma NoDup_snoc (l : list string) x : NoDup l -> ~ In x l -> NoDup (l ++ [x]).
Proof.
  induction l as [|y r IH]; simpl; intros Hn Hx; [constructor; [tauto|constructor]|].
  inversion Hn as [|? ? Hy Hr]; subst; constructor.
  - rewrite in_app_iff; simpl; intuition (subst; auto).
  - apply IH; auto.
Qed.

Lemma set_update_NoDup : forall xs acc, NoDup acc -> NoDup (set_update acc xs).
Proof.
  induction xs as [|x xs IH]; intros acc H; [exact H|].
  change (NoDup (set_update (set_add acc x) xs)); apply IH.
  unfold set_add; destruct (mem x acc) eqn:E; [exact H|].
  apply NoDup_snoc; [exact H | apply Facts.mem_false_In, E].
Qed.

Lemma set_update_length : forall xs acc, length (set_update acc xs) <= length acc + length xs.
Proof.
  induction xs as [|x xs IH]; intros acc; [simpl; lia|].
  change (length (set_update (set_add acc x) xs) <= length acc + length (x :: xs)).
  pose proof (IH (set_add acc x)); unfold set_add in *.
  destruct (mem x acc); [simpl; lia|rewrite length_app in *; simpl in *; lia].
Qed.

Lemma In_skipn {A} (k : nat) (ls : list A) l :
  In l (skipn k ls) <-> exists i, nth_error ls i = Some l /\ k <= i.
Proof.
  split.
  - intros H; apply In_nth_error in H as (j & Hj); rewrite nth_error_skipn in Hj.
    exists (k + j); split; [exact Hj|lia].
  - intros (i & Hi & Hk); replace i with (k + (i - k)) in Hi by lia.
    rewrite <- nth_error_skipn in Hi; exact (nth_error_In _ _ Hi).
Qed.

Lemma concat_cons x r : String.concat "" (x :: r) = String.append x (String.concat "" r).
Proof. destruct r; simpl; [symmetry; apply StrFacts.append_nil_r|reflexivity]. Qed.

Lemma link_text_cons l r :
  link_text (l :: r) = String.append (String.append l MainPy.newline) (link_text r).
Proof. unfold link_text; cbn [map]; apply concat_cons. Qed.

Lemma link_text_app a b : link_text (a ++ b) = String.append (link_text a) (link_text b).
Proof.
  induction a as [|l r IH]; [reflexivity|].
  rewrite <- app_comm_cons, !link_text_cons, IH.
  rewrite (StrFacts.append_assoc (String.append l MainPy.newline)); reflexivity.
Qed.

Lemma substring_all s : substring 0 (String.length s) s = s.
Proof. induction s as [|c r IH]; simpl; [reflexivity|]; rewrite IH; reflexivity. Qed.

Lemma substring_split s : forall k,
  String.append (substring 0 k s) (substring k (String.length s - k) s) = s.
Proof.
  induction s as [|c r IH]; intros [|k]; simpl; try reflexivity.
  - rewrite substring_all; reflexivity.
  - rewrite IH; reflexivity.
Qed.

Lemma appended_nil t : appended_links t t [].
Proof.
  exists [], ""; split; [|left; split; reflexivity].
  cbn; symmetry; apply StrFacts.append_nil_r.
Qed.

Lemma appended_after t a x b :
  appended_links (String.append t (link_text a)) x b -> appended_links t x (a ++ b).
Proof.
  intros (d & p & Hx & Hd); exists (a ++ d), p; split.
  - rewrite Hx, link_text_app, !StrFacts.append_assoc; reflexivity.
  - destruct Hd as [[-> ->]|(l & q & Hl & Hq)]; [left; split; reflexivity|right].
    exists l, q; split; [rewrite <- app_assoc, Hl; reflexivity|exact Hq].
Qed.

(** [save_processed_article] adds the link's line, or a prefix of it when
    the write fails. *)
Lemma save_text o link st :
  let '(f, r) := MainPy.save_processed_article o link st in
  (exists p q, MainPy.text_of (MainPy.m_dedup f) = String.append (MainPy.text_of (MainPy.m_dedup st)) p /\
               String.append p q = String.append link MainPy.newline) /\
  (r = Ok tt -> MainPy.text_of (MainPy.m_dedup f) =
                  String.append (MainPy.text_of (MainPy.m_dedup st)) (String.append link MainPy.newline)).
Proof.
  destruct o as [| |k]; cbn [MainPy.save_processed_article MainPy.m_dedup MainPy.text_of].
  - split; [|reflexivity].
    exists (String.append link MainPy.newline), ""; split; [reflexivity|apply StrFacts.append_nil_r].
  - split; [|discriminate].
    exists "", (String.append link MainPy.newline); split; [symmetry; apply StrFacts.append_nil_r|reflexivity].
  - split; [|discriminate].
    eexists; eexists; split; [reflexivity|apply substring_split].
Qed.

Lemma articles_loop_text bk outs :
  forall arts s, exists added,
    let '(s', r) := MainPy.articles_loop bk outs arts s in
    MainPy.ms_summaries s' = MainPy.ms_summaries s ++ added /\
    appended_links (MainPy.text_of (MainPy.m_dedup (MainPy.ms_fs s)))
                   (MainPy.text_of (MainPy.m_dedup (MainPy.ms_fs s'))) (map fst added) /\
    (r = Ok tt -> MainPy.text_of (MainPy.m_dedup (MainPy.ms_fs s')) =
                    String.append (MainPy.text_of (MainPy.m_dedup (MainPy.ms_fs s))) (link_text (map fst added))).
Proof.
  induction arts as [|a r IH]; intros s; cbn [MainPy.articles_loop].
  - exists []; rewrite app_nil_r; split; [reflexivity|split; [apply appended_nil|]].
    intros _; cbn; symmetry; apply StrFacts.append_nil_r.
  - destruct (MainPy.summarize_article (bk (MainPy.a_content a))) as [sm|]; [|apply IH].
    destruct (truthy sm); [|apply IH].
    pose proof (save_text (MainPy.m_app outs (length (MainPy.ms_summaries s))) (MainPy.a_link a)
                  (MainPy.ms_fs s)) as Hsv.
    destruct (MainPy.save_processed_article (MainPy.m_app outs (length (MainPy.ms_summaries s)))
                (MainPy.a_link a) (MainPy.ms_fs s)) as [f [[]|x]];
      destruct Hsv as [(p & q & Hp & Hpq) Hok].
    + specialize (Hok eq_refl).
      destruct (IH (MainPy.mk_mstate f (MainPy.ms_summaries s ++ [(MainPy.a_link a, MainPy.md_block a sm)])
                                    (MainPy.ms_invalid s))) as [added H].
      exists ((MainPy.a_link a, MainPy.md_block a sm) :: added).
      destruct (MainPy.articles_loop bk outs r _) as [s' r'].
      destruct H as (H1 & H2 & H3); cbn [MainPy.ms_summaries MainPy.ms_fs] in H1, H2, H3.
      split; [|split].
      * rewrite H1, <- app_assoc; reflexivity.
      * change (map fst ((MainPy.a_link a, MainPy.md_block a sm) :: added))
          with ([MainPy.a_link a] ++ map fst added).
        apply appended_after; rewrite Hok in H2.
        rewrite link_text_cons; cbn [link_text map String.concat].
        rewrite StrFacts.append_nil_r; exact H2.
      * intros Hr; rewrite (H3 Hr), Hok; cbn [map]; rewrite link_text_cons, StrFacts.append_assoc.
        reflexivity.
    + exists [(MainPy.a_link a, MainPy.md_block a sm)]; cbn [MainPy.ms_summaries MainPy.ms_fs].
      split; [reflexivity|split; [|discriminate]].
      exists [], p; split; [exact Hp|right].
      exists (MainPy.a_link a), q; split; [reflexivity|exact Hpq].
Qed.

Lemma mfeeds_loop_text bk pm outs limit processed :
  forall feeds s, exists added,
    let '(s', r) := MainPy.mfeeds_loop bk pm outs limit processed feeds s in
    MainPy.ms_summaries s' = MainPy.ms_summaries s ++ added /\
    appended_links (MainPy.text_of (MainPy.m_dedup (MainPy.ms_fs s)))
                   (MainPy.text_of (MainPy.m_dedup (MainPy.ms_fs s'))) (map fst added) /\
    (r = Ok tt -> MainPy.text_of (MainPy.m_dedup (MainPy.ms_fs s')) =
                    String.append (MainPy.text_of (MainPy.m_dedup (MainPy.ms_fs s))) (link_text (map fst added))) /\
    MainPy.m_invalid (MainPy.ms_fs s') = MainPy.m_invalid (MainPy.ms_fs s) /\
    MainPy.m_reports (MainPy.ms_fs s') = MainPy.m_reports (MainPy.ms_fs s) /\
    (r = Ok tt -> MainPy.ms_invalid s' = MainPy.ms_invalid s ++
                    filter (fun u => no_valid (MainPy.fetch_valid_articles pm u limit processed)) feeds).
Proof.
  induction feeds as [|u us IH]; intros s; cbn [MainPy.mfeeds_loop filter].
  - exists []; rewrite !app_nil_r; split; [reflexivity|split; [apply appended_nil|]].
    split; [intros _; cbn; symmetry; apply StrFacts.append_nil_r|].
    split; [reflexivity|split; [reflexivity|intros _; reflexivity]].
  - destruct (MainPy.fetch_valid_articles pm u limit processed) as [[arts|]|x] eqn:Ef;
      cbn [no_valid].
    3:{ exists []; rewrite !app_nil_r; split; [reflexivity|split; [apply appended_nil|]].
        split; [discriminate|split; [reflexivity|split; [reflexivity|discriminate]]]. }
    + destruct (articles_loop_text bk outs arts s) as [a1 A].
      destruct (Facts.articles_loop_spec bk outs arts s) as [a1' A'].
      destruct (MainPy.articles_loop bk outs arts s) as [s1 [[]|y]];
        destruct A as (A1 & A2 & A3); destruct A' as (A1' & _ & A3' & A4' & A5' & _);
        assert (a1' = a1) as -> by (apply (app_inv_head (MainPy.ms_summaries s)); congruence).
      * specialize (A3 eq_refl).
        destruct (IH s1) as [a2 B]; exists (a1 ++ a2).
        destruct (MainPy.mfeeds_loop bk pm outs limit processed us s1) as [s' r'].
        destruct B as (B1 & B2 & B3 & B4 & B5 & B6).
        split; [rewrite B1, A1, app_assoc; reflexivity|].
        split; [rewrite map_app; apply appended_after; rewrite <- A3; exact B2|].
        split; [intros H; rewrite (B3 H), A3, map_app, link_text_app, StrFacts.append_assoc; reflexivity|].
        split; [rewrite B4, A4'; reflexivity|].
        split; [rewrite B5, A3'; reflexivity|].
        intros H; rewrite (B6 H), A5'; reflexivity.
      * exists a1; split; [exact A1|split; [exact A2|]].
        split; [discriminate|split; [exact A4'|split; [exact A3'|discriminate]]].
    + destruct (IH (MainPy.mk_mstate (MainPy.ms_fs s) (MainPy.ms_summaries s)
                                     (MainPy.ms_invalid s ++ [u]))) as [added Hadd].
      exists added.
      destruct (MainPy.mfeeds_loop bk pm outs limit processed us _) as [s' r'].
      destruct Hadd as (H1 & H2 & H3 & H4 & H5 & H6).
      split; [exact H1|split; [exact H2|split; [exact H3|split; [exact H4|split; [exact H5|]]]]].
      intros H; rewrite (H6 H); simpl; rewrite <- app_assoc; reflexivity.
Qed.

Lemma main_files_spec bk pm outs limit feeds probe pull day st :
  let o := MainPy.main bk pm outs limit feeds probe pull day st in
  appended_links (MainPy.text_of (MainPy.m_dedup st)) (MainPy.text_of (MainPy.m_dedup (main_files o)))
                 (map fst (main_summaries o)) /\
  (main_status o = Ok tt ->
     MainPy.text_of (MainPy.m_dedup (main_files o)) =
       String.append (MainPy.text_of (MainPy.m_dedup st)) (link_text (map fst (main_summaries o)))) /\
  (forall processed,
     snd (MainPy.ensure_model_available probe pull) = Ok tt ->
     MainPy.load_processed_articles (MainPy.processed_lines (MainPy.m_dedup st)) limit = Ok processed ->
     (forall x, snd (MainPy.mfeeds_loop bk pm outs limit processed feeds (MainPy.mk_mstate st [] [])) = Raise x ->
        main_status o = Raise x /\
        MainPy.m_reports (main_files o) = MainPy.m_reports st /\
        MainPy.m_invalid (main_files o) = MainPy.m_invalid st) /\
     (main_status o = Ok tt ->
        MainPy.m_invalid (main_files o) =
          Some (Complete (filter (fun u => no_valid (MainPy.fetch_valid_articles pm u limit processed)) feeds)) /\
        MainPy.file_at (MainPy.md_name day) (MainPy.m_reports (main_files o)) =
          Some (Complete (MainPy.Markdown (map snd (main_summaries o)))) /\
        MainPy.file_at (MainPy.html_name day) (MainPy.m_reports (main_files o)) =
          Some (Complete (MainPy.Html (map snd (main_summaries o)))) /\
        (forall n, n <> MainPy.md_name day -> n <> MainPy.html_name day ->
           MainPy.file_at n (MainPy.m_reports (main_files o)) = MainPy.file_at n (MainPy.m_reports st)))).
Proof.
  intros o; subst o; unfold MainPy.main.
  destruct (MainPy.ensure_model_available probe pull) as [cs [u|y]]; cbn [snd].
  2:{ unfold main_files, main_summaries, main_status; cbn [fst snd map].
      split; [apply appended_nil|split; [intros _; symmetry; apply StrFacts.append_nil_r|]].
      intros p H; discriminate. }
  destruct (MainPy.load_processed_articles (MainPy.processed_lines (MainPy.m_dedup st)) limit)
    as [processed|y] eqn:El.
  2:{ unfold main_files, main_summaries, main_status; cbn [fst snd map].
      split; [apply appended_nil|split; [discriminate|]].
      intros p _ H; discriminate. }
  destruct (mfeeds_loop_text bk pm outs limit processed feeds (MainPy.mk_mstate st [] [])) as [added Hadd].
  destruct (MainPy.mfeeds_loop bk pm outs limit processed feeds _) as [s' r] eqn:Em.
  destruct Hadd as (H1 & H2 & H3 & H4 & H5 & H6);
    cbn [MainPy.ms_summaries MainPy.ms_fs MainPy.ms_invalid app] in H1, H2, H3, H4, H5, H6.
  destruct r as [[]|x].
  - pose proof (OutFacts.write_outputs_dedup outs day (MainPy.ms_invalid s')
                  (map snd (MainPy.ms_summaries s')) (MainPy.ms_fs s')) as Hd.
    pose proof (OutFacts.write_outputs_ok outs day (MainPy.ms_invalid s')
                  (map snd (MainPy.ms_summaries s')) (MainPy.ms_fs s')) as Hw.
    destruct (MainPy.write_outputs outs day (MainPy.ms_invalid s')
                (map snd (MainPy.ms_summaries s')) (MainPy.ms_fs s')) as [f r'].
    unfold main_files, main_summaries, main_status; cbn [fst snd] in Hd, Hw |- *.
    rewrite Hd, H1.
    split; [exact H2|split; [intros _; exact (H3 eq_refl)|]].
    intros p _ Hp; injection Hp as <-; rewrite Em.
    split; [intros x Hx; discriminate|].
    intros Hr; rewrite (Hw Hr); cbn [MainPy.m_invalid MainPy.m_reports].
    rewrite (H6 eq_refl), H5, H1.
    split; [reflexivity|split; [|split]].
    + rewrite OutFacts.file_at_put_other by (intros E; symmetry in E; exact (OutFacts.md_ne_html day E)).
      apply OutFacts.file_at_put_same.
    + apply OutFacts.file_at_put_same.
    + intros n Hm Hh.
      rewrite OutFacts.file_at_put_other by (intros E; exact (Hh (eq_sym E))).
      rewrite OutFacts.file_at_put_other by (intros E; exact (Hm (eq_sym E))).
      reflexivity.
  - unfold main_files, main_summaries, main_status; cbn [fst snd].
    rewrite H1.
    split; [exact H2|split; [discriminate|]].
    intros p _ Hp; injection Hp as <-; rewrite Em.
    split; [|discriminate].
    intros x' Hx; injection Hx as <-; split; [reflexivity|split; assumption].
Qed.

Lemma ewn_cons x y :
  ends_with_newline y = true -> (y = "" -> x = ascii_of_nat 10) -> ends_with_newline (String x y) = true.
Proof. destruct y as [|c r]; intros H Hx; [rewrite (Hx eq_refl); reflexivity|exact H]. Qed.

Lemma ewn_tail c r : r <> "" -> ends_with_newline (String c r) = ends_with_newline r.
Proof. destruct r; [congruence|reflexivity]. Qed.

Lemma ewn_single c : ends_with_newline (String c "") = true -> c = ascii_of_nat 10.
Proof. simpl; apply Ascii.eqb_eq. Qed.

Lemma translate_nl_nonempty s : translate_nl false s = "" -> s = "".
Proof.
  destruct s as [|c r]; [reflexivity|]; cbn [translate_nl].
  destruct (Ascii.eqb c (ascii_of_nat 10)); [|destruct (Ascii.eqb c (ascii_of_nat 13))]; discriminate.
Qed.

Lemma translate_nl_app t : forall cr b,
  t <> "" -> ends_with_newline t = true ->
  translate_nl cr (String.append t b) = String.append (translate_nl cr t) (translate_nl false b).
Proof.
  induction t as [|c r IH]; intros cr b Hne H; [congruence|].
  destruct (string_dec r "") as [->|Hr].
  - apply ewn_single in H; subst c; destruct cr; reflexivity.
  - rewrite ewn_tail in H by exact Hr.
    cbn [String.append translate_nl].
    rewrite !IH by assumption.
    destruct (Ascii.eqb c (ascii_of_nat 10)); [destruct cr|destruct (Ascii.eqb c (ascii_of_nat 13))];
      reflexivity.
Qed.

Lemma translate_nl_ewn t : forall cr,
  ends_with_newline t = true -> ends_with_newline (translate_nl cr t) = true.
Proof.
  induction t as [|c r IH]; intros cr H; [reflexivity|].
  destruct (string_dec r "") as [->|Hr].
  - apply ewn_single in H; subst c; destruct cr; reflexivity.
  - rewrite ewn_tail in H by exact Hr; cbn [translate_nl].
    destruct (Ascii.eqb c (ascii_of_nat 10)) eqn:E1.
    + destruct cr; [apply IH, H|].
      apply ewn_cons; [apply IH, H|intros _; apply Ascii.eqb_eq, E1].
    + destruct (Ascii.eqb c (ascii_of_nat 13)).
      * apply ewn_cons; [apply IH, H|reflexivity].
      * apply ewn_cons; [apply IH, H|intros E; apply translate_nl_nonempty in E; contradiction].
Qed.

Lemma translate_nl_line l :
  no_line_break l = true ->
  translate_nl false (String.append l MainPy.newline) = String.append l MainPy.newline.
Proof.
  unfold MainPy.newline; induction l as [|c r IH]; [reflexivity|].
  cbn [no_line_break String.append translate_nl]; intros H.
  apply andb_true_iff in H as [H Hr]; apply andb_true_iff in H as [H1 H2].
  apply negb_true_iff in H1; apply negb_true_iff in H2.
  rewrite H1, H2, (IH Hr); reflexivity.
Qed.

Lemma no_line_break_no_newline l : no_line_break l = true -> no_newline l = true.
Proof.
  induction l as [|c r IH]; [reflexivity|]; cbn [no_line_break no_newline]; intros H.
  apply andb_true_iff in H as [H Hr]; apply andb_true_iff in H as [H1 _].
  rewrite H1, (IH Hr); reflexivity.
Qed.

Lemma file_lines_nonempty s : s <> "" -> file_lines s <> [].
Proof.
  destruct s as [|c r]; [congruence|]; intros _; cbn [file_lines].
  destruct (Ascii.eqb c (ascii_of_nat 10)); [discriminate|destruct (file_lines r); discriminate].
Qed.

Lemma file_lines_app_nl a : forall b,
  a <> "" -> ends_with_newline a = true ->
  file_lines (String.append a b) = file_lines a ++ file_lines b.
Proof.
  induction a as [|c r IH]; intros b Hne H; [congruence|].
  destruct (string_dec r "") as [->|Hr].
  - apply ewn_single in H; subst c; reflexivity.
  - rewrite ewn_tail in H by exact Hr; cbn [String.append file_lines].
    rewrite (IH b Hr H).
    destruct (Ascii.eqb c (ascii_of_nat 10)); [reflexivity|].
    destruct (file_lines r) as [|h t] eqn:E; [exact (False_ind _ (file_lines_nonempty r Hr E))|].
    reflexivity.
Qed.

(** The lines main.py reads back after one more link was appended to a
    text that ends a line. *)
Lemma processed_lines_append t l :
  ends_with_newline t = true -> no_line_break l = true ->
  file_lines (universal_newlines (String.append t (String.append l MainPy.newline))) =
    file_lines (universal_newlines t) ++ [String.append l MainPy.newline].
Proof.
  intros Ht Hl; unfold universal_newlines.
  assert (Hline : file_lines (String.append l MainPy.newline) = [String.append l MainPy.newline]).
  { pose proof (StrFacts.file_lines_app l "" (no_line_break_no_newline l Hl)) as E.
    rewrite StrFacts.append_nil_r in E; exact E. }
  destruct (string_dec t "") as [->|Hne].
  - cbn [String.append]; rewrite translate_nl_line by exact Hl; exact Hline.
  - rewrite translate_nl_app, translate_nl_line by assumption.
    rewrite file_lines_app_nl, Hline; [reflexivity| |apply translate_nl_ewn, Ht].
    intros E; apply translate_nl_nonempty in E; contradiction.
Qed.

End MainFacts.

(** X5.  main.py's [load_processed_articles] keeps only the last
    [article_limit] lines of the processed file: for a non-negative limit it
    returns a duplicate-free set of at most [article_limit] links, the
    stripped lines at positions [len - article_limit] and later; a negative
    limit with an existing file raises (the [deque] maxlen check); a missing
    file gives the empty set. *)
Theorem X5_load_keeps_last_lines :
  (forall lines limit, (0 <= limit)%Z ->
     exists s, MainPy.load_processed_articles (Some lines) limit = Ok s /\
       NoDup s /\ length s <= Z.to_nat limit /\
       forall x, In x s <-> exists i l, nth_error lines i = Some l /\
                                   length lines - Z.to_nat limit <= i /\ x = strip l) /\
  (forall lines limit, (limit < 0)%Z ->
     MainPy.load_processed_articles (Some lines) limit = Raise OtherError) /\
  (forall limit, MainPy.load_processed_articles None limit = Ok []).
Proof.
  split; [|split; [|reflexivity]].
  - intros lines limit Hl; unfold MainPy.load_processed_articles.
    destruct (limit <? 0)%Z eqn:E; [apply Z.ltb_lt in E; lia|].
    eexists; split; [reflexivity|]; split; [|split].
    + apply MainFacts.set_update_NoDup; constructor.
    + pose proof (MainFacts.set_update_length
                    (map strip (MainPy.lastn (Z.to_nat limit) lines)) []) as H.
      rewrite length_map in H; unfold MainPy.lastn in *; rewrite length_skipn in H.
      cbn [length] in H; lia.
    + intros x; rewrite Facts.set_update_In; simpl.
      rewrite in_map_iff; unfold MainPy.lastn; split.
      * intros [[]|(l & <- & Hl')]; apply MainFacts.In_skipn in Hl' as (i & Hi & Hk).
        exists i, l; auto.
      * intros (i & l & Hi & Hk & ->); right; exists l; split; [reflexivity|].
        apply MainFacts.In_skipn; exists i; auto.
  - intros lines limit Hl; unfold MainPy.load_processed_articles.
    destruct (limit <? 0)%Z eqn:E; [reflexivity|apply Z.ltb_ge in E; lia].
Qed.

Lemma X5_witness :
  (0 <= 2)%Z /\
  exists s, MainPy.load_processed_articles (Some ["a"; "b"; "c "]) 2 = Ok s /\
    NoDup s /\ length s <= 2 /\
    forall x, In x s <-> exists i l, nth_error ["a"; "b"; "c "] i = Some l /\ 1 <= i /\ x = strip l.
Proof.
  split; [lia|].
  exact (proj1 X5_load_keeps_last_lines ["a"; "b"; "c "] 2%Z ltac:(lia)).
Defined.

(** X6.  A link main.py appends with [save_processed_article] is in the
    set [load_processed_articles] loads next, for any [article_limit >= 1],
    when the link holds no line break and the file it is appended to is
    empty or ends a line. *)
Theorem X6_save_then_load :
  forall st link limit, (1 <= limit)%Z -> no_line_break link = true ->
    ends_with_newline (MainPy.text_of (MainPy.m_dedup st)) = true ->
    exists s, MainPy.load_processed_articles
                (MainPy.processed_lines (MainPy.m_dedup (fst (MainPy.save_processed_article AOk link st))))
                limit = Ok s /\
              In (strip link) s.
Proof.
  intros st link limit Hl Hlb Hend.
  cbn [MainPy.save_processed_article fst MainPy.m_dedup MainPy.processed_lines option_map].
  unfold MainPy.processed_lines; cbn [option_map].
  rewrite (MainFacts.processed_lines_append _ _ Hend Hlb).
  set (ls := file_lines (universal_newlines (MainPy.text_of (MainPy.m_dedup st)))).
  unfold MainPy.load_processed_articles.
  destruct (limit <? 0)%Z eqn:E; [apply Z.ltb_lt in E; lia|].
  eexists; split; [reflexivity|].
  apply Facts.set_update_In; right; rewrite <- StrFacts.strip_nl; apply in_map; unfold MainPy.lastn.
  apply MainFacts.In_skipn; exists (length ls); split.
  - rewrite nth_error_app2, Nat.sub_diag by lia; reflexivity.
  - rewrite length_app; simpl; lia.
Qed.

Lemma X6_witness :
  let st := MainPy.mk_mfs (Some (String.append "https://x/0" MainPy.newline)) None [] in
  exists s, MainPy.load_processed_articles
              (MainPy.processed_lines (MainPy.m_dedup (fst (MainPy.save_processed_article AOk "https://x/1" st))))
              1 = Ok s /\
            In (strip "https://x/1") s.
Proof.
  intros st.
  exact (X6_save_then_load st "https://x/1" 1%Z ltac:(lia) eq_refl eq_refl).
Defined.


(** X8.  When main.py's model check passes and [main] completes, the
    invalid-feeds file holds exactly the feeds, in order, for which
    [fetch_valid_articles] found no valid article (including feeds whose
    recent entries were all processed before), and the Markdown and the
    HTML digest of the run's summaries are the files of the day's names,
    replacing the digests an earlier run of the same day wrote there; no
    other file of the output folder changes. *)
Theorem X8_main_outputs :
  forall bk pm outs limit feeds probe pull day st processed,
    let o := MainPy.main bk pm outs limit feeds probe pull day st in
    snd (MainPy.ensure_model_available probe pull) = Ok tt ->
    MainPy.load_processed_articles (MainPy.processed_lines (MainPy.m_dedup st)) limit = Ok processed ->
    main_status o = Ok tt ->
    MainPy.m_invalid (main_files o) =
      Some (Complete (filter (fun u => no_valid (MainPy.fetch_valid_articles pm u limit processed)) feeds)) /\
    MainPy.file_at (MainPy.md_name day) (MainPy.m_reports (main_files o)) =
      Some (Complete (MainPy.Markdown (map snd (main_summaries o)))) /\
    MainPy.file_at (MainPy.html_name day) (MainPy.m_reports (main_files o)) =
      Some (Complete (MainPy.Html (map snd (main_summaries o)))) /\
    (forall n, n <> MainPy.md_name day -> n <> MainPy.html_name day ->
       MainPy.file_at n (MainPy.m_reports (main_files o)) = MainPy.file_at n (MainPy.m_reports st)).
Proof.
  intros bk pm outs limit feeds probe pull day st processed o Hc Hl Hs.
  exact (proj2 (proj2 (proj2 (MainFacts.main_files_spec bk pm outs limit feeds probe pull day st))
                  processed Hc Hl) Hs).
Qed.

Lemma X8_witness :
  let ent := mk_entry None (Some "https://x/1") (Some "t") (Some "body") None None in
  let pm := fun u : string => if String.eqb u "good" then mk_feed false [ent] else mk_feed false [] in
  let outs := MainPy.mk_mio (fun _ => AOk) WOk WOk WOk in
  let st := MainPy.mk_mfs None None [(MainPy.md_name "2024-01-01", Complete (MainPy.Markdown ["old"]))] in
  let o := MainPy.main (fun _ => Reply "s") pm outs 5%Z ["good"; "empty"] (Ok tt) (Ok tt) "2024-01-01" st in
  MainPy.m_invalid (main_files o) =
    Some (Complete (filter (fun u => no_valid (MainPy.fetch_valid_articles pm u 5 [])) ["good"; "empty"])) /\
  MainPy.file_at (MainPy.md_name "2024-01-01") (MainPy.m_reports (main_files o)) =
    Some (Complete (MainPy.Markdown (map snd (main_summaries o)))).
Proof.
  intros ent pm outs st o.
  destruct (X8_main_outputs (fun _ => Reply "s") pm outs 5%Z ["good"; "empty"] (Ok tt) (Ok tt)
              "2024-01-01" st [] eq_refl eq_refl eq_refl) as (H1 & H2 & _).
  split; [exact H1|exact H2].
Defined.



(** X10.  In main.py, an entry with no link is read under the link
    "No_URL_available"; once that placeholder is in the processed set, every
    link-less entry of every feed is skipped. *)
Theorem X10_linkless_entries_skipped :
  forall processed es,
    mem "No_URL_available" processed = true ->
    MainPy.valid_loop processed es =
      MainPy.valid_loop processed (filter (fun e => match e_link e with Some _ => true | None => false end) es).
Proof.
  intros processed es H; induction es as [|e es IH]; [reflexivity|].
  cbn [filter]; destruct (e_link e) as [l|] eqn:El.
  - cbn [MainPy.valid_loop]; rewrite El; cbn [get_or].
    destruct (truthy l && negb (mem l processed)); [|exact IH].
    destruct (MainPy.entry_content e) as [c|y]; [|reflexivity].
    destruct (truthy (strip c)); [|exact IH].
    rewrite IH; reflexivity.
  - cbn [MainPy.valid_loop]; rewrite El; cbn [get_or]; rewrite H; simpl; exact IH.
Qed.

Lemma X10_witness :
  let e1 := mk_entry None None (Some "t1") (Some "body") None None in
  let e2 := mk_entry None (Some "https://x/2") (Some "t2") (Some "body") None None in
  mem "No_URL_available" ["No_URL_available"] = true /\
  MainPy.valid_loop ["No_URL_available"] [e1; e2] = MainPy.valid_loop ["No_URL_available"] [e2].
Proof.
  intros e1 e2; split; [reflexivity|].
  exact (X10_linkless_entries_skipped ["No_URL_available"] [e1; e2] eq_refl).
Defined.

Module RunFacts.

Lemma produced_step ab bk snap e a r :
  article_step ab bk snap e = Produced a r ->
  bk (r_content r) = Reply (r_summary r) /\ truthy (r_summary r) = true /\
  r_summary r <> failed_sentinel /\ truthy (r_content r) = true.
Proof.
  unfold article_step; destruct (article_id e) as [aid|]; [|discriminate].
  destruct (truthy aid && negb (mem aid snap)); [|discriminate].
  destruct (resolve_content ab aid e) as [c|x]; [|discriminate].
  destruct (truthy c) eqn:Ec; cbn [negb]; [|discriminate].
  destruct (String.eqb (summarize_article (bk c)) failed_sentinel) eqn:Es; cbn [negb];
    [discriminate|].
  intros H; injection H as _ <-; cbn [r_content r_summary].
  apply String.eqb_neq in Es.
  unfold summarize_article in *; destruct (bk c) as [t| |]; try (exfalso; apply Es; reflexivity).
  destruct (truthy t) eqn:Et; [|exfalso; apply Es; reflexivity].
  repeat split; auto.
Qed.

Lemma step_raised_inv ab bk snap e a x :
  article_step ab bk snap e = StepRaised a x ->
  article_id e = Some a /\ truthy a = true /\ mem a snap = false /\ resolve_content ab a e = Raise x.
Proof.
  unfold article_step; destruct (article_id e) as [aid|]; [|discriminate].
  destruct (truthy aid && negb (mem aid snap)) eqn:Hel; [|discriminate].
  apply andb_true_iff in Hel as [Ht Hm]; apply negb_true_iff in Hm.
  destruct (resolve_content ab aid e) as [c|y] eqn:Hr.
  - destruct (negb (truthy c)); [discriminate|].
    destruct (negb (String.eqb _ _)); discriminate.
  - intros H; injection H as <- <-; auto.
Qed.

Lemma content_fallback_raise e x :
  content_fallback e = Raise x <->
  truthy (get_or (e_summary e) "") = false /\ truthy (get_or (e_description e) "") = false /\
  e_content e = Some [] /\ x = IndexError.
Proof.
  unfold content_fallback; split.
  - destruct (truthy (get_or (e_summary e) "")); [discriminate|].
    destruct (truthy (get_or (e_description e) "")); [discriminate|].
    destruct (e_content e) as [[|b bs]|].
    + intros H; injection H as <-; auto.
    + destruct (truthy (get_or b "")); discriminate.
    + destruct (truthy (get_or None "")); discriminate.
  - intros (-> & -> & -> & ->); reflexivity.
Qed.

Lemma resolve_content_raise ab a e x :
  resolve_content ab a e = Raise x <-> opt_truthy (ab a) = false /\ content_fallback e = Raise x.
Proof.
  unfold resolve_content; destruct (opt_truthy (ab a)); split.
  - discriminate.
  - intros [H _]; discriminate H.
  - auto.
  - intros [_ H]; exact H.
Qed.

Lemma entries_loop_produced ab bk N snap :
  forall es c a r, In (a, r) (produced (entries_loop ab bk N snap c es)) ->
    exists e, In e es /\ article_step ab bk snap e = Produced a r.
Proof.
  induction es as [|e es IH]; intros c a r H; simpl in H; [destruct H|].
  destruct (N <=? c)%Z; [destruct H|].
  destruct (article_step ab bk snap e) as [|a0|a0|a0 r0|a0 x] eqn:E; simpl in H.
  - destruct (IH c a r H) as (e' & ? & ?); exists e'; split; [right|]; assumption.
  - destruct (IH c a r H) as (e' & ? & ?); exists e'; split; [right|]; assumption.
  - destruct (IH c a r H) as (e' & ? & ?); exists e'; split; [right|]; assumption.
  - destruct H as [Heq|H]; [injection Heq as <- <-; exists e; split; [left; reflexivity|exact E]|].
    destruct (IH (c + 1)%Z a r H) as (e' & ? & ?); exists e'; split; [right|]; assumption.
  - destruct H.
Qed.

Lemma run_results_produced ab bk pa N feeds w st a r :
  In (a, r) (results (run ab bk pa N feeds w st)) ->
  exists e, article_step ab bk (loaded_snapshot w st) e = Produced a r.
Proof.
  destruct (_check_model_accessible (probe w) (pull_r w) (reprobe w)) as [cs [u|x]] eqn:Echk.
  2:{ unfold run; rewrite Echk; intros []. }
  destruct (RerunFacts.run_ok ab bk pa N feeds w st cs u Echk) as [R _]; rewrite R.
  rewrite SeqFacts.feeds_loop_flat; cbn [fst]; intros H.
  apply in_flat_map in H as (v & _ & H); unfold process_feed in H.
  destruct (pa v) as [f|x]; [|destruct H].
  destruct (bozo f); [destruct H|].
  destruct (entries_loop_produced ab bk N _ _ 0%Z a r H) as (e & _ & He); eauto.
Qed.

Lemma loaded_snapshot_NoDup w st : NoDup (loaded_snapshot w st).
Proof.
  unfold loaded_snapshot, _load_processed.
  destruct (load_try (dedup_file st) (load_io w)) as [lg [s|x]] eqn:E; cbn [snd];
    [|constructor].
  revert E; unfold load_try.
  destruct (dedup_file st) as [[items|]|]; [destruct (load_io w)| |]; try (intros H; discriminate H).
  - destruct (json_strings items); intros H; [|discriminate H].
    injection H as _ <-; apply MainFacts.set_update_NoDup; constructor.
  - destruct (load_io w); intros H; discriminate H.
  - intros H; injection H as _ <-; constructor.
Qed.

Lemma results_nonempty_check ab bk pa N feeds w st :
  results (run ab bk pa N feeds w st) <> [] ->
  exists cs u, _check_model_accessible (probe w) (pull_r w) (reprobe w) = (cs, Ok u).
Proof.
  destruct (_check_model_accessible (probe w) (pull_r w) (reprobe w)) as [cs [u|x]] eqn:Echk;
    [eauto|].
  unfold run; rewrite Echk; intros H; exfalso; apply H; reflexivity.
Qed.

(** The entry loop up to an entry that raises: the exception ends the
    feed, keeping what the entries before it produced. *)
Lemma entries_loop_raise ab bk N snap e post a x :
  article_step ab bk snap e = StepRaised a x ->
  forall pre c,
    exit (entries_loop ab bk N snap c pre) = Exhausted ->
    (c + Z.of_nat (length (produced (entries_loop ab bk N snap c pre))) < N)%Z ->
    entries_loop ab bk N snap c (pre ++ e :: post) =
      mk_feed_out (produced (entries_loop ab bk N snap c pre))
                  (attempts (entries_loop ab bk N snap c pre) ++ [a]) (Aborted x).
Proof.
  intros He; induction pre as [|e0 pre IH]; intros c Hex Hlt.
  - simpl in Hlt |- *; destruct (N <=? c)%Z eqn:Ec; [apply Z.leb_le in Ec; lia|].
    rewrite He; reflexivity.
  - simpl in Hex, Hlt |- *; destruct (N <=? c)%Z; [discriminate|].
    destruct (article_step ab bk snap e0) as [|a0|a0|a0 r0|a0 x0]; simpl in Hex, Hlt |- *.
    + apply IH; assumption.
    + rewrite IH by assumption; reflexivity.
    + rewrite IH by assumption; reflexivity.
    + rewrite IH; [reflexivity|assumption|lia].
    + discriminate.
Qed.

End RunFacts.

(** X11.  Every summary AIFeeder reports is the backend's non-empty reply
    to that entry's resolved content, which is non-empty, and is never the
    failure sentinel. *)
Theorem X11_reported_summary_wellformed :
  forall ab bk pa N feeds w st a r,
    In (a, r) (results (run ab bk pa N feeds w st)) ->
    bk (r_content r) = Reply (r_summary r) /\ truthy (r_summary r) = true /\
    r_summary r <> failed_sentinel /\ truthy (r_content r) = true.
Proof.
  intros ab bk pa N feeds w st a r H.
  destruct (RunFacts.run_results_produced ab bk pa N feeds w st a r H) as (e & He).
  exact (RunFacts.produced_step ab bk _ e a r He).
Qed.

Lemma X11_witness :
  let ent := mk_entry (Some "a") (Some "a") (Some "t") (Some "body") None None in
  let w := mk_world IoOk (Ok tt) (Ok tt) (Ok tt) WOk WOk in
  let o := run (fun _ => None) (fun _ => Reply "s") (fun _ => Ok (mk_feed false [ent])) 2%Z ["f"] w
               (mk_fs None []) in
  o.(results) = [("a", mk_result "t" "a" "s" "body")] /\
  Reply "s" = Reply (r_summary (mk_result "t" "a" "s" "body")).
Proof.
  intros ent w o.
  assert (H : In ("a", mk_result "t" "a" "s" "body") (results o)) by (left; reflexivity).
  split; [reflexivity|].
  exact (proj1 (X11_reported_summary_wellformed _ _ _ _ _ _ _ _ _ H)).
Defined.

(** X12.  AIFeeder's report write and dedup commit are independent.
    When the report cannot be written, the identifiers of the run are still
    committed (those summaries are never reported in full): the report file
    is missing, or left truncated when the write failed after [open].  When
    the report is written and the commit fails, what happens to the dedup
    file depends on where the commit failed: before [open(..., 'w')] the
    file is left as it was (the same articles are summarized again next
    run); after it, the truncated file stores no identifier and the next
    load starts from the empty set. *)
Theorem X12_report_and_commit_independent :
  forall ab bk pa N feeds w st,
    let o := run ab bk pa N feeds w st in
    results o <> [] ->
    (report_io w <> WOk -> save_io w = WOk ->
       reports (final o) =
         reports st ++ (match report_io w with
                        | WFailWrite => [Truncated (map snd (results o))]
                        | _ => []
                        end) /\
       forall a r, In (a, r) (results o) -> In a (stored_ids (dedup_file (final o)))) /\
    (report_io w = WOk -> save_io w <> WOk ->
       reports (final o) = reports st ++ [Complete (map snd (results o))] /\
       (save_io w = WFailOpen -> dedup_file (final o) = dedup_file st) /\
       (save_io w = WFailWrite ->
          stored_ids (dedup_file (final o)) = [] /\
          forall rd, snd (_load_processed (dedup_file (final o)) rd) = Ok [])).
Proof.
  intros ab bk pa N feeds w st o Hne; subst o.
  destruct (RunFacts.results_nonempty_check ab bk pa N feeds w st Hne) as (cs & u & Echk).
  destruct (RerunFacts.run_ok ab bk pa N feeds w st cs u Echk) as [R F].
  rewrite R in Hne |- *; rewrite F.
  destruct (fst (feeds_loop ab bk pa N (loaded_snapshot w st) feeds)) as [|s0 sums];
    [exfalso; apply Hne; reflexivity|].
  split; intros Hr Hs.
  - rewrite Hs; destruct (report_io w); [congruence| |];
      cbn [_save_processed _generate_report dedup_file reports];
      (split; [rewrite ?app_nil_r; reflexivity|]);
      intros a r Hin; rewrite Facts.stored_ids_written; apply Facts.set_update_In; right;
      change a with (fst (a, r)); apply in_map; exact Hin.
  - rewrite Hr; destruct (save_io w); [congruence| |];
      cbn [_save_processed _generate_report dedup_file reports].
    + split; [reflexivity|split; [reflexivity|discriminate]].
    + split; [reflexivity|split; [discriminate|]].
      intros _; split; [reflexivity|intros []; reflexivity].
Qed.

Lemma X12_witness :
  let ent := mk_entry (Some "a") (Some "a") (Some "t") (Some "body") None None in
  let w := mk_world IoOk (Ok tt) (Ok tt) (Ok tt) WFailOpen WOk in
  let o := run (fun _ => None) (fun _ => Reply "s") (fun _ => Ok (mk_feed false [ent])) 2%Z ["f"] w
               (mk_fs None []) in
  results o <> [] /\ reports (final o) = [] /\ In "a" (stored_ids (dedup_file (final o))).
Proof.
  intros ent w o.
  assert (Hne : results o <> []) by discriminate.
  destruct (proj1 (X12_report_and_commit_independent _ _ _ _ _ _ _ Hne) ltac:(discriminate) eq_refl)
    as [H1 H2].
  split; [exact Hne | split; [exact H1 | apply (H2 "a" (mk_result "t" "a" "s" "body")); left; reflexivity]].
Defined.

(** X13.  The dedup file AIFeeder commits holds each identifier once. *)
Theorem X13_committed_file_no_duplicates :
  forall ab bk pa N feeds w st,
    let o := run ab bk pa N feeds w st in
    save_io w = WOk -> results o <> [] ->
    NoDup (stored_ids (dedup_file (final o))).
Proof.
  intros ab bk pa N feeds w st o Hs Hne; subst o.
  destruct (RunFacts.results_nonempty_check ab bk pa N feeds w st Hne) as (cs & u & Echk).
  destruct (RerunFacts.run_ok ab bk pa N feeds w st cs u Echk) as [R F].
  rewrite R in Hne; rewrite F.
  destruct (fst (feeds_loop ab bk pa N (loaded_snapshot w st) feeds)) as [|s0 sums];
    [exfalso; apply Hne; reflexivity|].
  rewrite Hs; cbn [_save_processed dedup_file]; rewrite Facts.stored_ids_written.
  apply MainFacts.set_update_NoDup, RunFacts.loaded_snapshot_NoDup.
Qed.

Lemma X13_witness :
  let ent := fun i => mk_entry (Some i) (Some i) (Some "t") (Some "body") None None in
  let w := mk_world IoOk (Ok tt) (Ok tt) (Ok tt) WOk WOk in
  let o := run (fun _ => None) (fun _ => Reply "s")
               (fun _ => Ok (mk_feed false [ent "a"; ent "a"; ent "b"])) 5%Z ["f1"; "f2"] w
               (mk_fs None []) in
  NoDup (stored_ids (dedup_file (final o))).
Proof.
  intros ent w o; apply X13_committed_file_no_duplicates; [reflexivity|discriminate].
Defined.

(** X14.  In AIFeeder the only exception an entry raises is the
    [IndexError] of an eligible entry with no usable abstract, empty
    summary and description, and an empty ['content'] list; when the loop
    reaches such an entry it ends the feed there: the summaries of the
    entries before it are kept and the entries after it are not looked at. *)
Theorem X14_index_error_ends_feed :
  forall ab bk,
    (forall snap e a x,
       article_step ab bk snap e = StepRaised a x <->
       article_id e = Some a /\ truthy a = true /\ mem a snap = false /\
       opt_truthy (ab a) = false /\ truthy (get_or (e_summary e) "") = false /\
       truthy (get_or (e_description e) "") = false /\ e_content e = Some [] /\ x = IndexError) /\
    (forall N snap c pre e post a x,
       article_step ab bk snap e = StepRaised a x ->
       exit (entries_loop ab bk N snap c pre) = Exhausted ->
       (c + Z.of_nat (length (produced (entries_loop ab bk N snap c pre))) < N)%Z ->
       entries_loop ab bk N snap c (pre ++ e :: post) =
         mk_feed_out (produced (entries_loop ab bk N snap c pre))
                     (attempts (entries_loop ab bk N snap c pre) ++ [a]) (Aborted x)).
Proof.
  intros ab bk; split.
  - intros snap e a x; split.
    + intros H; destruct (RunFacts.step_raised_inv ab bk snap e a x H) as (Hid & Ht & Hm & Hr).
      apply RunFacts.resolve_content_raise in Hr as [Ha Hf].
      apply RunFacts.content_fallback_raise in Hf as (Hs & Hd & Hc & Hx).
      repeat split; assumption.
    + intros (Hid & Ht & Hm & Ha & Hs & Hd & Hc & ->).
      assert (Hr : resolve_content ab a e = Raise IndexError)
        by (apply RunFacts.resolve_content_raise; split;
            [exact Ha | apply RunFacts.content_fallback_raise; auto]).
      unfold article_step; rewrite Hid, Ht, Hm, Hr; reflexivity.
  - intros N snap c pre e post a x He; exact (RunFacts.entries_loop_raise ab bk N snap e post a x He pre c).
Qed.

Lemma X14_witness :
  let ea := mk_entry (Some "a") (Some "a") (Some "t") (Some "body") None None in
  let eb := mk_entry (Some "b") (Some "b") (Some "t") None None (Some []) in
  let ec := mk_entry (Some "c") (Some "c") (Some "t") (Some "body") None None in
  entries_loop (fun _ => None) (fun _ => Reply "s") 5%Z [] 0%Z ([ea] ++ eb :: [ec]) =
    mk_feed_out [("a", mk_result "t" "a" "s" "body")] ["a"; "b"] (Aborted IndexError).
Proof.
  intros ea eb ec.
  exact (proj2 (X14_index_error_ends_feed (fun _ => None) (fun _ => Reply "s")) 5%Z [] 0%Z [ea] eb [ec]
           "b" IndexError eq_refl eq_refl ltac:(simpl; lia)).
Defined.

Module DedupFacts.

Lemma set_update_app_NoDup : forall xs acc, NoDup (acc ++ xs) -> set_update acc xs = acc ++ xs.
Proof.
  induction xs as [|x xs IH]; intros acc H; [rewrite app_nil_r; reflexivity|].
  change (set_update (set_add acc x) xs = acc ++ x :: xs).
  assert (Hx : mem x acc = false).
  { apply Facts.mem_false_In; intros Hin.
    apply NoDup_remove_2 in H; apply H, in_app_iff; left; exact Hin. }
  unfold set_add; rewrite Hx, IH; [rewrite <- app_assoc; reflexivity|].
  rewrite <- app_assoc; exact H.
Qed.

End DedupFacts.

(** X15.  AIFeeder's dedup file round-trips: after [_save_processed]
    writes a set of identifiers, [_load_processed] on the written file
    returns that same set (and logs that it loaded it). *)
Theorem X15_save_then_load_processed :
  forall ids st, NoDup ids ->
    _load_processed (dedup_file (_save_processed ids WOk st)) IoOk =
      ([LogInfo "Loaded processed articles."], Ok ids).
Proof.
  intros ids st H; cbn [_save_processed dedup_file]; unfold _load_processed, load_try.
  assert (Hj : json_strings (map JStr ids) = Ok ids).
  { clear H; induction ids as [|x l IH]; [reflexivity|]; cbn [map json_strings]; rewrite IH; reflexivity. }
  rewrite Hj, (DedupFacts.set_update_app_NoDup ids [] H); reflexivity.
Qed.

Lemma X15_witness :
  NoDup ["a"; "b"] /\
  _load_processed (dedup_file (_save_processed ["a"; "b"] WOk (mk_fs None []))) IoOk =
    ([LogInfo "Loaded processed articles."], Ok ["a"; "b"]).
Proof.
  assert (H : NoDup ["a"; "b"]) by (repeat constructor; simpl; intuition discriminate).
  split; [exact H | exact (X15_save_then_load_processed ["a"; "b"] (mk_fs None []) H)].
Defined.

(** X16.  main.py's [ensure_model_available] probes the model once and
    pulls it once only when the probe reports 404, with no second probe;
    it raises exactly when the probe fails otherwise or the pull fails, and
    then [main] returns without a summary and without touching any file. *)
Theorem X16_main_model_check :
  forall bk pm outs limit feeds probe pull day st,
    let o := MainPy.main bk pm outs limit feeds probe pull day st in
    main_calls o = (if is_not_found probe then [Chat; Pull] else [Chat]) /\
    (forall x, snd (MainPy.ensure_model_available probe pull) = Raise x <->
       (is_not_found probe = false /\ probe = Raise x) \/
       (is_not_found probe = true /\ pull = Raise x)) /\
    ((exists x, snd (MainPy.ensure_model_available probe pull) = Raise x) ->
       main_files o = st /\ main_summaries o = [] /\ main_status o = Ok tt).
Proof.
  intros bk pm outs limit feeds probe pull day st o.
  assert (Hc : fst (MainPy.ensure_model_available probe pull) =
               if is_not_found probe then [Chat; Pull] else [Chat]).
  { unfold MainPy.ensure_model_available, is_not_found.
    destruct probe as [u|[| | | |code| |]]; try reflexivity.
    destruct (code =? 404)%Z; [destruct pull|]; reflexivity. }
  split; [|split].
  - subst o; unfold main_calls, MainPy.main; rewrite <- Hc.
    destruct (MainPy.ensure_model_available probe pull) as [cs [u|x]]; cbn [fst]; [|reflexivity].
    destruct (MainPy.load_processed_articles (MainPy.processed_lines (MainPy.m_dedup st)) limit)
      as [p|x]; [|reflexivity].
    destruct (MainPy.mfeeds_loop bk pm outs limit p feeds (MainPy.mk_mstate st [] [])) as [s [v|x]];
      [destruct (MainPy.write_outputs outs day (MainPy.ms_invalid s) (map snd (MainPy.ms_summaries s))
                   (MainPy.ms_fs s))|];
      reflexivity.
  - intros x; unfold MainPy.ensure_model_available, is_not_found.
    destruct probe as [u|[| | | |code| |]]; cbn [snd];
      try (split; [intros H; injection H as <-; left; auto
                  |intros [[_ H]|[H _]]; [injection H as <-; reflexivity|discriminate H]]).
    + split; [discriminate|intros [[_ H]|[H _]]; discriminate H].
    + destruct (code =? 404)%Z; cbn [snd].
      * destruct pull as [v|y]; cbn [snd]; split.
        -- discriminate.
        -- intros [[H _]|[_ H]]; discriminate H.
        -- intros H; injection H as <-; right; auto.
        -- intros [[H _]|[_ H]]; [discriminate H|injection H as <-; reflexivity].
      * split; [intros H; injection H as <-; left; auto
               |intros [[_ H]|[H _]]; [injection H as <-; reflexivity|discriminate H]].
  - intros [x Hx]; subst o; unfold main_files, main_summaries, main_status, MainPy.main.
    destruct (MainPy.ensure_model_available probe pull) as [cs [u|y]]; cbn [snd] in Hx;
      [discriminate Hx|auto].
Qed.

Lemma X16_witness :
  let o := MainPy.main (fun _ => Reply "s") (fun _ => mk_feed false [])
             (MainPy.mk_mio (fun _ => AOk) WOk WOk WOk) 5%Z ["f"]
             (Raise (ResponseError 404)) (Raise OSError) "2024-01-01" (MainPy.mk_mfs None None []) in
  main_files o = MainPy.mk_mfs None None [] /\ main_summaries o = [] /\ main_status o = Ok tt.
Proof.
  intros o.
  exact (proj2 (proj2 (X16_main_model_check (fun _ => Reply "s") (fun _ => mk_feed false [])
           (MainPy.mk_mio (fun _ => AOk) WOk WOk WOk) 5%Z ["f"]
           (Raise (ResponseError 404)) (Raise OSError) "2024-01-01" (MainPy.mk_mfs None None [])))
           (ex_intro _ OSError eq_refl)).
Defined.

Module AbstractStrip.
Import FetchAbstract.

Lemma lstrip_shape s : lstrip s = s \/ String.length (lstrip s) < String.length s.
Proof.
  induction s as [|c r IH]; cbn [lstrip]; [left; reflexivity|].
  destruct (is_space c); [right; cbn [String.length]; destruct IH as [-> | H]; lia|left; reflexivity].
Qed.

Lemma rstrip_length s : String.length (rstrip s) <= String.length s.
Proof.
  induction s as [|c r IH]; cbn [rstrip]; [reflexivity|].
  destruct (is_space c && String.eqb (rstrip r) ""); cbn [String.length]; lia.
Qed.

Lemma strip_fixed s : strip s = s -> lstrip s = s /\ rstrip s = s.
Proof.
  unfold strip; intros H.
  assert (Hl : lstrip s = s).
  { destruct (lstrip_shape s) as [E|E]; [exact E|].
    pose proof (rstrip_length (lstrip s)) as L; rewrite H in L; lia. }
  rewrite Hl in H; auto.
Qed.

Lemma lstrip_app a b : lstrip a <> "" -> lstrip (String.append a b) = String.append (lstrip a) b.
Proof.
  induction a as [|c r IH]; cbn [lstrip String.append]; [intros H; exfalso; apply H; reflexivity|].
  destruct (is_space c); [exact IH|reflexivity].
Qed.

Lemma rstrip_app a b : rstrip b <> "" -> rstrip (String.append a b) = String.append a (rstrip b).
Proof.
  intros Hb; induction a as [|c r IH]; cbn [rstrip String.append]; [reflexivity|].
  rewrite IH; destruct (String.append r (rstrip b)) eqn:E.
  - destruct r; cbn [String.append] in E; [contradiction|discriminate].
  - rewrite andb_false_r; reflexivity.
Qed.

Lemma concat_stripped : forall l,
  (forall x, In x l -> x <> "" /\ strip x = x) ->
  strip (String.concat "" l) = String.concat "" l.
Proof.
  assert (R : forall l, l <> [] -> (forall x, In x l -> x <> "" /\ strip x = x) ->
                rstrip (String.concat "" l) = String.concat "" l /\ String.concat "" l <> "").
  { induction l as [|x l IH]; intros Hne H; [contradiction|].
    destruct (H x (or_introl eq_refl)) as [Hx Hs]; apply strip_fixed in Hs as [_ Hr].
    destruct l as [|y l'].
    - cbn [String.concat]; auto.
    - destruct (IH ltac:(discriminate) (fun z Hz => H z (or_intror Hz))) as [IHr IHn].
      change (String.concat "" (x :: y :: l')) with (String.append x (String.concat "" (y :: l'))).
      rewrite rstrip_app by (rewrite IHr; exact IHn); rewrite IHr.
      split; [reflexivity|destruct x; [contradiction|discriminate]]. }
  intros [|x l] H; [reflexivity|].
  destruct (R (x :: l) ltac:(discriminate) H) as [Hr Hn].
  destruct (H x (or_introl eq_refl)) as [Hx Hs]; apply strip_fixed in Hs as [Hl _].
  unfold strip; destruct l as [|y l'].
  - cbn [String.concat] in *; rewrite Hl; exact Hr.
  - change (String.concat "" (x :: y :: l')) with (String.append x (String.concat "" (y :: l'))) in *.
    rewrite lstrip_app by (rewrite Hl; exact Hx); rewrite Hl; exact Hr.
Qed.

Lemma get_text_strip_stripped el : strip (get_text_strip el) = get_text_strip el.
Proof.
  unfold get_text_strip; apply concat_stripped.
  intros x Hx; apply filter_In in Hx as [Hm Ht]; apply in_map_iff in Hm as (y & <- & _).
  split; [intros E; rewrite E in Ht; discriminate Ht|apply StrFacts.strip_idem].
Qed.

Lemma extract_stripped src f v : extract src f = Some v -> strip v = v.
Proof.
  destruct src, f; cbn [extract]; intros H; try discriminate H; injection H as <-;
    first [apply get_text_strip_stripped | apply StrFacts.strip_idem].
Qed.

End AbstractStrip.

(** X17.  Every abstract AIFeeder's [fetch_article_abstract] returns is
    free of leading and trailing whitespace, whichever strategy found it:
    the tag texts are joined from stripped pieces, the regex group and the
    meta [content] are stripped. *)
Theorem X17_abstract_stripped :
  forall re fetch url v,
    FetchAbstract.fetch_article_abstract re fetch url = Some v -> strip v = v.
Proof.
  intros re fetch url v; unfold FetchAbstract.fetch_article_abstract.
  destruct (fetch url) as [pg|]; [|discriminate].
  generalize FetchAbstract.abstract_sources as srcs.
  induction srcs as [|src srcs IH]; cbn [FetchAbstract.first_match]; [discriminate|].
  destruct (FetchAbstract.finder re src pg) as [f|]; [apply AbstractStrip.extract_stripped|exact IH].
Qed.

Lemma X17_witness :
  let el := FetchAbstract.mk_elem "abstract" [] ["  We study "; " "; "feeds. "] in
  FetchAbstract.fetch_article_abstract (fun _ => None)
    (fun _ => Some (FetchAbstract.mk_page [el] "")) "u" = Some "We studyfeeds." /\
  strip "We studyfeeds." = "We studyfeeds.".
Proof.
  intros el; split; [reflexivity|].
  exact (X17_abstract_stripped (fun _ => None) (fun _ => Some (FetchAbstract.mk_page [el] "")) "u"
           "We studyfeeds." eq_refl).
Defined.
